(** * The credential / session lifecycle of the commerce application

    A shallow embedding of the route handlers under [src/app/api] (signup,
    verify-otp, login, forgot-password, reset-password and the three settings
    routes), of the two Mongoose schemas ([models/User.ts], [models/Otp.ts])
    and of [lib/auth.ts].

    Modelling conventions.
    - The two MongoDB collections are lists in insertion order: [findOne]
      returns the first match, [deleteOne] removes the first match.
    - [_id]s are natural numbers drawn from a counter kept with the store.
    - Dates are milliseconds since the epoch, in [Z]; every handler receives
      the instant [now] at which it reads the clock.
    - Strings are ASCII strings; request fields are strings, an optional field
      is an [option] ([None] is JavaScript's [undefined]).
    - [bcryptjs] is an interface (class [Bcrypt]); the random salt a call
      draws is an explicit argument of the handler.
    - An exception thrown inside a handler's [try] block is a value of [Exn];
      the handler's [catch] turns it into the 500 response.
    - The [createdAt]/[updatedAt] timestamps, the attributes of the session
      cookie, console logging and the read-only [GET] of the profile route
      are not modelled. [connectToDatabase] of [lib/db.ts] is modelled on its
      own ([DbConnection]); the handlers are taken with the connection
      established. *)

From Stdlib Require Import String Ascii List Bool ZArith Arith Lia.
Import ListNotations.
Local Open Scope string_scope.

(* ------------------------------------------------------------------ *)
(** ** JavaScript strings *)

Module Js.

(** [a || b] on an optional string: [undefined] and the empty string are
    falsy. *)
Definition or (a : option string) (b : string) : string :=
  match a with
  | None => b
  | Some EmptyString => b
  | Some s => s
  end.

Definition isUpper (c : ascii) : bool :=
  let n := nat_of_ascii c in (65 <=? n)%nat && (n <=? 90)%nat.

Definition isLower (c : ascii) : bool :=
  let n := nat_of_ascii c in (97 <=? n)%nat && (n <=? 122)%nat.

Definition isDigit (c : ascii) : bool :=
  let n := nat_of_ascii c in (48 <=? n)%nat && (n <=? 57)%nat.

(** White space removed by [String.prototype.trim] (ASCII part). *)
Definition isSpace (c : ascii) : bool :=
  let n := nat_of_ascii c in ((9 <=? n)%nat && (n <=? 13)%nat) || (n =? 32)%nat.

Definition lowerChar (c : ascii) : ascii :=
  if isUpper c then ascii_of_nat (nat_of_ascii c + 32) else c.

Fixpoint toLowerCase (s : string) : string :=
  match s with
  | EmptyString => EmptyString
  | String c s' => String (lowerChar c) (toLowerCase s')
  end.

Fixpoint trimStart (s : string) : string :=
  match s with
  | EmptyString => EmptyString
  | String c s' => if isSpace c then trimStart s' else s
  end.

Fixpoint trimEnd (s : string) : string :=
  match s with
  | EmptyString => EmptyString
  | String c s' =>
      match trimEnd s' with
      | EmptyString => if isSpace c then EmptyString else String c EmptyString
      | t => String c t
      end
  end.

Definition trim (s : string) : string := trimEnd (trimStart s).

(** *** Regular expressions, matched by derivatives *)

Inductive regex : Type :=
| Empty : regex
| Eps : regex
| Chars (p : ascii -> bool) : regex
| Cat (r s : regex) : regex
| Alt (r s : regex) : regex
| Star (r : regex) : regex.

Fixpoint nullable (r : regex) : bool :=
  match r with
  | Empty => false
  | Eps => true
  | Chars _ => false
  | Cat r s => nullable r && nullable s
  | Alt r s => nullable r || nullable s
  | Star _ => true
  end.

Definition cat (r s : regex) : regex :=
  match r, s with
  | Empty, _ => Empty
  | _, Empty => Empty
  | Eps, _ => s
  | _, _ => Cat r s
  end.

Definition alt (r s : regex) : regex :=
  match r, s with
  | Empty, _ => s
  | _, Empty => r
  | _, _ => Alt r s
  end.

Fixpoint deriv (c : ascii) (r : regex) : regex :=
  match r with
  | Empty => Empty
  | Eps => Empty
  | Chars p => if p c then Eps else Empty
  | Cat r s =>
      if nullable r then alt (cat (deriv c r) s) (deriv c s)
      else cat (deriv c r) s
  | Alt r s => alt (deriv c r) (deriv c s)
  | Star r => cat (deriv c r) (Star r)
  end.

(** [^r$] tested on [s]. *)
Fixpoint test (r : regex) (s : string) : bool :=
  match s with
  | EmptyString => nullable r
  | String c s' => test (deriv c r) s'
  end.

Definition plus (r : regex) : regex := Cat r (Star r).
Definition opt (r : regex) : regex := Alt r Eps.
Definition chr (a : ascii) : regex := Chars (Ascii.eqb a).

(** [\w] *)
Definition word : regex :=
  Chars (fun c => isUpper c || isLower c || isDigit c || Ascii.eqb c "_"%char).

End Js.

(* ------------------------------------------------------------------ *)
(** ** External collaborators: bcryptjs and jsonwebtoken *)

(** [bcryptjs]: [hash data salt] is the digest [bcrypt.hash] returns when it
    draws (or is given) [salt]; [compare data digest] is [bcrypt.compare].
    The two laws are the library's contract: a digest verifies the data it
    was made from, and a digest is never shorter than six characters (bcrypt
    digests have sixty). *)
Class Bcrypt : Type := {
  bcrypt_hash : string -> string -> string;
  bcrypt_compare : string -> string -> bool;
  bcrypt_compare_hash :
    forall data salt, bcrypt_compare data (bcrypt_hash data salt) = true;
  bcrypt_hash_length :
    forall data salt, (6 <= String.length (bcrypt_hash data salt))%nat
}.

(** [jsonwebtoken], idealised: a token is its payload, its [iat]/[exp] claims
    (in seconds) and the secret it was signed with; verification accepts the
    token exactly when the secret is the verifier's and [exp] lies in the
    future. *)
Module Jwt.

Record payload : Type := { userId : nat; role : string }.

Record token : Type := {
  claims : payload;
  iat : Z;
  exp : Z;
  signedWith : string
}.

(** [jwt.sign(payload, secret, { expiresIn: "1d" })] at instant [now]. *)
Definition sign (p : payload) (secret : string) (now : Z) : token :=
  let seconds := (now / 1000)%Z in
  {| claims := p; iat := seconds; exp := (seconds + 86400)%Z;
     signedWith := secret |}.

(** [jwt.verify(token, secret)]; [None] stands for the exception thrown. *)
Definition verify (t : token) (secret : string) (now : Z) : option payload :=
  if String.eqb (signedWith t) secret && (now / 1000 <? exp t)%Z
  then Some (claims t) else None.

End Jwt.

(* ------------------------------------------------------------------ *)
(** ** models/User.ts *)

Module User.

Record Preferences : Type := {
  notificationsEnabled : bool;
  darkMode : bool;
  newsletterSubscribed : bool
}.

Record t : Type := {
  _id : nat;
  name : string;
  email : string;
  password : string;
  role : string;
  isVerified : bool;
  image : string;
  phoneNumber : string;
  bio : string;
  preferences : Preferences
}.

(** The [match] pattern of the email path:
    [/^\w+([\.-]?\w+)*@\w+([\.-]?\w+)*(\.\w{2,3})+$/]. *)
Definition emailPattern : Js.regex :=
  let w := Js.word in
  let sep := Js.Alt (Js.chr "."%char) (Js.chr "-"%char) in
  let group := Js.Star (Js.Cat (Js.opt sep) (Js.plus w)) in
  let tld := Js.Cat (Js.chr "."%char) (Js.Cat w (Js.Cat w (Js.opt w))) in
  Js.Cat (Js.plus w)
    (Js.Cat group
       (Js.Cat (Js.chr "@"%char)
          (Js.Cat (Js.plus w) (Js.Cat group (Js.plus tld))))).

(** The setters of the email path ([lowercase: true], [trim: true]);
    Mongoose runs them on documents and on query filters alike. *)
Definition castEmail (s : string) : string := Js.trim (Js.toLowerCase s).

(** The setter of the name path ([trim: true]). *)
Definition castName (s : string) : string := Js.trim s.

Definition nonEmpty (s : string) : bool :=
  match s with EmptyString => false | _ => true end.

(** Document validation, on the values the setters produced. *)
Definition validName (n : string) : bool := nonEmpty n.
Definition validEmail (e : string) : bool :=
  nonEmpty e && Js.test emailPattern e.
Definition validPassword (p : string) : bool :=
  nonEmpty p && (6 <=? String.length p)%nat.
Definition validRole (r : string) : bool :=
  String.eqb r "user" || String.eqb r "admin".

Definition defaultPreferences : Preferences :=
  {| notificationsEnabled := true; darkMode := false;
     newsletterSubscribed := false |}.

Definition set_password (p : string) (u : t) : t :=
  {| _id := _id u; name := name u; email := email u; password := p;
     role := role u; isVerified := isVerified u; image := image u;
     phoneNumber := phoneNumber u; bio := bio u;
     preferences := preferences u |}.

Definition set_isVerified (b : bool) (u : t) : t :=
  {| _id := _id u; name := name u; email := email u; password := password u;
     role := role u; isVerified := b; image := image u;
     phoneNumber := phoneNumber u; bio := bio u;
     preferences := preferences u |}.

Definition set_name (n : string) (u : t) : t :=
  {| _id := _id u; name := n; email := email u; password := password u;
     role := role u; isVerified := isVerified u; image := image u;
     phoneNumber := phoneNumber u; bio := bio u;
     preferences := preferences u |}.

Definition set_bio (b : string) (u : t) : t :=
  {| _id := _id u; name := name u; email := email u; password := password u;
     role := role u; isVerified := isVerified u; image := image u;
     phoneNumber := phoneNumber u; bio := b;
     preferences := preferences u |}.

Definition set_phoneNumber (p : string) (u : t) : t :=
  {| _id := _id u; name := name u; email := email u; password := password u;
     role := role u; isVerified := isVerified u; image := image u;
     phoneNumber := p; bio := bio u;
     preferences := preferences u |}.

Definition set_image (i : string) (u : t) : t :=
  {| _id := _id u; name := name u; email := email u; password := password u;
     role := role u; isVerified := isVerified u; image := i;
     phoneNumber := phoneNumber u; bio := bio u;
     preferences := preferences u |}.

Definition set_preferences (p : Preferences) (u : t) : t :=
  {| _id := _id u; name := name u; email := email u; password := password u;
     role := role u; isVerified := isVerified u; image := image u;
     phoneNumber := phoneNumber u; bio := bio u;
     preferences := p |}.

End User.

(* ------------------------------------------------------------------ *)
(** ** models/Otp.ts *)

Module Otp.

Inductive kind : Type := verification | reset.

Definition kind_eqb (a b : kind) : bool :=
  match a, b with
  | verification, verification => true
  | reset, reset => true
  | _, _ => false
  end.

Record t : Type := {
  _id : nat;
  email : string;
  code : string;
  type : kind;
  expiresAt : Z
}.

(** [{ code, expiresAt }] applied to a document. *)
Definition set_code_expiresAt (c : string) (e : Z) (o : t) : t :=
  {| _id := _id o; email := email o; code := c; type := type o;
     expiresAt := e |}.

End Otp.

(* ------------------------------------------------------------------ *)
(** ** The document store *)

Record Db : Type := {
  users : list User.t;
  otps : list Otp.t;
  nextId : nat
}.

Definition emptyDb : Db := {| users := []; otps := []; nextId := 0 |}.

(** What a handler's [try] block can throw in this model. *)
Inductive Exn : Type :=
| ValidationError (path : string)
| DuplicateKey (path : string)
| TypeError.

(** Replace the first element satisfying [p] by its image under [f]. *)
Fixpoint updateFirst {A : Type} (p : A -> bool) (f : A -> A) (l : list A) : list A :=
  match l with
  | [] => []
  | x :: l' => if p x then f x :: l' else x :: updateFirst p f l'
  end.

(** Remove the first element satisfying [p]. *)
Fixpoint removeFirst {A : Type} (p : A -> bool) (l : list A) : list A :=
  match l with
  | [] => []
  | x :: l' => if p x then l' else x :: removeFirst p l'
  end.

Module Users.

Definition byEmail (e : string) (u : User.t) : bool :=
  String.eqb (User.email u) (User.castEmail e).

Definition byId (i : nat) (u : User.t) : bool := Nat.eqb (User._id u) i.

(** [User.findOne({ email })]. *)
Definition findOne (e : string) (db : Db) : option User.t :=
  find (byEmail e) (users db).

(** [User.findById(id)]. *)
Definition findById (i : nat) (db : Db) : option User.t :=
  find (byId i) (users db).

(** [User.create({ name, email, password, role, isVerified: false })]:
    setters, then validation, then the insert under the unique index on
    [email]. *)
Definition create (n e p r : string) (db : Db) : Exn + (Db * User.t) :=
  let n' := User.castName n in
  let e' := User.castEmail e in
  if negb (User.validName n') then inl (ValidationError "name")
  else if negb (User.validEmail e') then inl (ValidationError "email")
  else if negb (User.validPassword p) then inl (ValidationError "password")
  else if negb (User.validRole r) then inl (ValidationError "role")
  else if existsb (fun u => String.eqb (User.email u) e') (users db)
  then inl (DuplicateKey "email")
  else
    let u := {| User._id := nextId db; User.name := n'; User.email := e';
                User.password := p; User.role := r;
                User.isVerified := false; User.image := "";
                User.phoneNumber := ""; User.bio := "";
                User.preferences := User.defaultPreferences |} in
    inr ({| users := users db ++ [u]; otps := otps db;
            nextId := S (nextId db) |}, u).

(** [User.findOneAndUpdate({ email }, update)], no upsert. *)
Definition findOneAndUpdate (e : string) (f : User.t -> User.t) (db : Db) : Db :=
  {| users := updateFirst (byEmail e) f (users db); otps := otps db;
     nextId := nextId db |}.

(** [User.findByIdAndUpdate(id, { $set: ... }, { new: true })]: the store
    after the update and the updated document, if any. *)
Definition findByIdAndUpdate (i : nat) (f : User.t -> User.t) (db : Db)
  : Db * option User.t :=
  ({| users := updateFirst (byId i) f (users db); otps := otps db;
      nextId := nextId db |},
   option_map f (find (byId i) (users db))).

(** Document validation as [save()] runs it: every path of the loaded
    document that has a validator, on the stored values. *)
Definition validate (u : User.t) : option Exn :=
  if negb (User.validName (User.name u)) then Some (ValidationError "name")
  else if negb (User.validEmail (User.email u)) then Some (ValidationError "email")
  else if negb (User.validPassword (User.password u))
  then Some (ValidationError "password")
  else if negb (User.validRole (User.role u)) then Some (ValidationError "role")
  else None.

(** [user.save()] after [user.password = p]: the document is validated and,
    if it passes, written back to the document with the same [_id]. *)
Definition savePassword (u : User.t) (p : string) (db : Db) : Exn + Db :=
  match validate (User.set_password p u) with
  | Some e => inl e
  | None =>
      inr {| users := updateFirst (byId (User._id u)) (User.set_password p) (users db);
             otps := otps db; nextId := nextId db |}
  end.

End Users.

Module Otps.

Definition byKey (e c : string) (k : Otp.kind) (o : Otp.t) : bool :=
  String.eqb (Otp.email o) e && String.eqb (Otp.code o) c
  && Otp.kind_eqb (Otp.type o) k.

Definition byEmailType (e : string) (k : Otp.kind) (o : Otp.t) : bool :=
  String.eqb (Otp.email o) e && Otp.kind_eqb (Otp.type o) k.

Definition byId (i : nat) (o : Otp.t) : bool := Nat.eqb (Otp._id o) i.

(** [Otp.findOne({ email, code, type })]. *)
Definition findOne (e c : string) (k : Otp.kind) (db : Db) : option Otp.t :=
  find (byKey e c k) (otps db).

(** [Otp.create({ email, code, type, expiresAt })]; the [required]
    validators reject an empty email or code. *)
Definition create (e c : string) (k : Otp.kind) (expires : Z) (db : Db) : Exn + Db :=
  if negb (User.nonEmpty e) then inl (ValidationError "email")
  else if negb (User.nonEmpty c) then inl (ValidationError "code")
  else
    inr {| users := users db;
           otps := otps db ++ [ {| Otp._id := nextId db; Otp.email := e;
                                   Otp.code := c; Otp.type := k;
                                   Otp.expiresAt := expires |} ];
           nextId := S (nextId db) |}.

(** [Otp.findOneAndUpdate({ email, type }, { code, expiresAt },
    { upsert: true, new: true })]. *)
Definition findOneAndUpdate_upsert (e : string) (k : Otp.kind) (c : string)
  (expires : Z) (db : Db) : Db :=
  if existsb (byEmailType e k) (otps db)
  then {| users := users db;
          otps := updateFirst (byEmailType e k)
                    (Otp.set_code_expiresAt c expires) (otps db);
          nextId := nextId db |}
  else {| users := users db;
          otps := otps db ++ [ {| Otp._id := nextId db; Otp.email := e;
                                  Otp.code := c; Otp.type := k;
                                  Otp.expiresAt := expires |} ];
          nextId := S (nextId db) |}.

(** [Otp.deleteOne({ _id })]. *)
Definition deleteOne (i : nat) (db : Db) : Db :=
  {| users := users db; otps := removeFirst (byId i) (otps db);
     nextId := nextId db |}.

(** The TTL index on [expiresAt] ([expires: 0]): a pass of MongoDB's TTL
    monitor at instant [now] removes the documents whose date has been
    reached. *)
Definition ttlSweep (now : Z) (db : Db) : Db :=
  {| users := users db;
     otps := filter (fun o => (now <? Otp.expiresAt o)%Z) (otps db);
     nextId := nextId db |}.

End Otps.

(* ------------------------------------------------------------------ *)
(** ** Responses *)

(** The fields a JSON body carries besides [message]. *)
Inductive Extra : Type :=
| NoExtra
| Unverified                                   (* unverified: true *)
| UserId (id : nat)                            (* userId *)
| ErrorMessage (e : Exn)                       (* error: error.message *)
| LoginUser (id : nat) (name email role : string)
| UpdatedUser (u : option User.t)              (* user: updatedUser *)
| Prefs (p : User.Preferences).                (* preferences *)

Record Response : Type := {
  status : Z;
  message : string;
  extra : Extra;
  cookie : option Jwt.token                    (* the "token" cookie, if set *)
}.

Definition json (msg : string) (st : Z) : Response :=
  {| status := st; message := msg; extra := NoExtra; cookie := None |}.

Definition jsonWith (msg : string) (x : Extra) (st : Z) : Response :=
  {| status := st; message := msg; extra := x; cookie := None |}.

(** The error taxonomy of the specification, and the success case. *)
Inductive Outcome : Type :=
| Success
| DuplicateEmail
| InvalidOrExpiredCode
| InvalidCredentials
| NotVerified
| IncorrectPassword
| NotFound
| Unauthorized
| ServerError.

(* ------------------------------------------------------------------ *)
(** ** lib/auth.ts *)

Definition fallbackSecret : string := "fallback_secret_keep_it_safe".

(** [getSession()]: [tok] is the value of the "token" cookie, [env] the
    [JWT_SECRET] environment variable. *)
Definition getSession (env : option string) (tok : option Jwt.token) (now : Z)
  : option Jwt.payload :=
  match tok with
  | None => None
  | Some t => Jwt.verify t (Js.or env fallbackSecret) now
  end.

(* ------------------------------------------------------------------ *)
(** ** Route handlers *)

(** app/api/auth/signup/route.ts *)
Module Signup.

Record body : Type := {
  name : string;
  email : string;
  password : string;
  role : option string
}.

Definition POST `{Bcrypt} (db : Db) (now : Z) (salt : string) (b : body)
  : Db * Response :=
  match Users.findOne (email b) db with
  | Some _ => (db, json "A user with this email already exists" 400)
  | None =>
      let hashedPassword := bcrypt_hash (password b) salt in
      match Users.create (name b) (email b) hashedPassword
              (Js.or (role b) "user") db with
      | inl e =>
          (db, jsonWith "Server error during registration" (ErrorMessage e) 500)
      | inr (db1, newUser) =>
          let otpCode := "123456" in
          match Otps.create (email b) otpCode Otp.verification
                  (now + 10 * 60 * 1000)%Z db1 with
          | inl e =>
              (db1, jsonWith "Server error during registration" (ErrorMessage e) 500)
          | inr db2 =>
              (db2, jsonWith "User registered successfully. Please verify your email."
                      (UserId (User._id newUser)) 201)
          end
      end
  end.

End Signup.

(** app/api/auth/verify-otp/route.ts *)
Module VerifyOtp.

Record body : Type := { email : string; code : string }.

Definition POST (db : Db) (now : Z) (b : body) : Db * Response :=
  match Otps.findOne (email b) (code b) Otp.verification db with
  | None => (db, json "Invalid or expired verification code" 400)
  | Some otpRecord =>
      if (now >? Otp.expiresAt otpRecord)%Z
      then (Otps.deleteOne (Otp._id otpRecord) db,
            json "Verification code has expired" 400)
      else
        let db1 := Users.findOneAndUpdate (email b) (User.set_isVerified true) db in
        (Otps.deleteOne (Otp._id otpRecord) db1,
         json "Account verified successfully. You can now login." 200)
  end.

End VerifyOtp.

(** app/api/auth/login/route.ts *)
Module Login.

Record body : Type := { email : string; password : string }.

Definition POST `{Bcrypt} (env : option string) (db : Db) (now : Z) (b : body)
  : Db * Response :=
  match Users.findOne (email b) db with
  | None => (db, json "Invalid email or password" 401)
  | Some user =>
      if negb (User.isVerified user)
      then (db, jsonWith "Please verify your email before logging in" Unverified 403)
      else if negb (bcrypt_compare (password b) (User.password user))
      then (db, json "Invalid email or password" 401)
      else
        let JWT_SECRET := Js.or env fallbackSecret in
        let token :=
          Jwt.sign {| Jwt.userId := User._id user; Jwt.role := User.role user |}
            JWT_SECRET now in
        (db, {| status := 200; message := "Login successful";
                extra := LoginUser (User._id user) (User.name user)
                           (User.email user) (User.role user);
                cookie := Some token |})
  end.

End Login.

(** app/api/auth/forgot-password/route.ts *)
Module ForgotPassword.

Record body : Type := { email : string }.

Definition POST (db : Db) (now : Z) (b : body) : Db * Response :=
  match Users.findOne (email b) db with
  | None =>
      (db, json "If an account exists with this email, we have sent a reset code." 200)
  | Some _ =>
      let resetCode := "123456" in
      (Otps.findOneAndUpdate_upsert (email b) Otp.reset resetCode
         (now + 15 * 60 * 1000)%Z db,
       json "Reset code sent to your email." 200)
  end.

End ForgotPassword.

(** app/api/auth/reset-password/route.ts *)
Module ResetPassword.

Record body : Type := { email : string; code : string; newPassword : string }.

Definition POST `{Bcrypt} (db : Db) (now : Z) (salt : string) (b : body)
  : Db * Response :=
  match Otps.findOne (email b) (code b) Otp.reset db with
  | None => (db, json "Invalid or expired reset code" 400)
  | Some otpRecord =>
      let hashedNewPassword := bcrypt_hash (newPassword b) salt in
      let db1 :=
        Users.findOneAndUpdate (email b) (User.set_password hashedNewPassword) db in
      (Otps.deleteOne (Otp._id otpRecord) db1,
       json "Password updated successfully. You can now login." 200)
  end.

End ResetPassword.

(** The password route of the settings module ([PATCH]). *)
Module UpdatePassword.

Record body : Type := { currentPassword : string; newPassword : string }.

Definition PATCH `{Bcrypt} (env : option string) (tok : option Jwt.token)
  (db : Db) (now : Z) (salt : string) (b : body) : Db * Response :=
  match getSession env tok now with
  | None => (db, json "Unauthorized" 401)
  | Some session =>
      match Users.findById (Jwt.userId session) db with
      | None => (db, json "User not found" 404)
      | Some user =>
          if negb (bcrypt_compare (currentPassword b) (User.password user))
          then (db, json "Incorrect current password" 400)
          else
            let hashedPassword := bcrypt_hash (newPassword b) salt in
            match Users.savePassword user hashedPassword db with
            | inl _ => (db, json "Server error" 500)
            | inr db1 => (db1, json "Password updated successfully" 200)
            end
      end
  end.

End UpdatePassword.

(** The profile route of the settings module ([PATCH]). *)
Module Profile.

Record body : Type := {
  name : option string;
  bio : option string;
  phoneNumber : option string;
  image : option string
}.

(** One key of a [$set]: Mongoose drops a key whose value is [undefined]. *)
Definition setKey {A B : Type} (set : A -> B -> B) (v : option A) (d : B) : B :=
  match v with
  | None => d
  | Some a => set a d
  end.

(** [{ $set: { name, bio, phoneNumber, image } }]; the update runs the
    setter of the name path. *)
Definition update (b : body) (u : User.t) : User.t :=
  setKey User.set_image (image b)
    (setKey User.set_phoneNumber (phoneNumber b)
       (setKey User.set_bio (bio b)
          (setKey User.set_name (option_map User.castName (name b)) u))).

Definition PATCH (env : option string) (tok : option Jwt.token)
  (db : Db) (now : Z) (b : body) : Db * Response :=
  match getSession env tok now with
  | None => (db, json "Unauthorized" 401)
  | Some session =>
      let '(db1, updatedUser) :=
        Users.findByIdAndUpdate (Jwt.userId session) (update b) db in
      (db1, jsonWith "Profile updated successfully" (UpdatedUser updatedUser) 200)
  end.

End Profile.

(** The settings (preferences) route of the settings module ([PATCH]). *)
Module Settings.

Record preferences : Type := {
  notificationsEnabled : option bool;
  darkMode : option bool;
  newsletterSubscribed : option bool
}.

Record body : Type := { prefs : option preferences }.

Definition set_notificationsEnabled (v : bool) (p : User.Preferences) : User.Preferences :=
  {| User.notificationsEnabled := v; User.darkMode := User.darkMode p;
     User.newsletterSubscribed := User.newsletterSubscribed p |}.

Definition set_darkMode (v : bool) (p : User.Preferences) : User.Preferences :=
  {| User.notificationsEnabled := User.notificationsEnabled p; User.darkMode := v;
     User.newsletterSubscribed := User.newsletterSubscribed p |}.

Definition set_newsletterSubscribed (v : bool) (p : User.Preferences) : User.Preferences :=
  {| User.notificationsEnabled := User.notificationsEnabled p;
     User.darkMode := User.darkMode p; User.newsletterSubscribed := v |}.

(** The three dotted keys of the [$set]. *)
Definition update (p : preferences) (u : User.t) : User.t :=
  User.set_preferences
    (Profile.setKey set_newsletterSubscribed (newsletterSubscribed p)
       (Profile.setKey set_darkMode (darkMode p)
          (Profile.setKey set_notificationsEnabled (notificationsEnabled p)
             (User.preferences u))))
    u.

Definition PATCH (env : option string) (tok : option Jwt.token)
  (db : Db) (now : Z) (b : body) : Db * Response :=
  match getSession env tok now with
  | None => (db, json "Unauthorized" 401)
  | Some session =>
      match prefs b with
      | None => (db, json "Server error" 500)      (* preferences is undefined *)
      | Some p =>
          let '(db1, updatedUser) :=
            Users.findByIdAndUpdate (Jwt.userId session) (update p) db in
          match updatedUser with
          | None => (db1, json "Server error" 500) (* updatedUser is null *)
          | Some u =>
              (db1, jsonWith "Settings updated successfully"
                      (Prefs (User.preferences u)) 200)
          end
      end
  end.

End Settings.

(* ------------------------------------------------------------------ *)
(** ** The application as a transition system *)

Inductive Request : Type :=
| SignupReq (salt : string) (b : Signup.body)
| VerifyOtpReq (b : VerifyOtp.body)
| LoginReq (b : Login.body)
| ForgotPasswordReq (b : ForgotPassword.body)
| ResetPasswordReq (salt : string) (b : ResetPassword.body)
| UpdatePasswordReq (tok : option Jwt.token) (salt : string) (b : UpdatePassword.body)
| ProfileReq (tok : option Jwt.token) (b : Profile.body)
| SettingsReq (tok : option Jwt.token) (b : Settings.body).

(** Route dispatch: the request [r] served at instant [now]. *)
Definition handle `{Bcrypt} (env : option string) (db : Db) (now : Z) (r : Request)
  : Db * Response :=
  match r with
  | SignupReq salt b => Signup.POST db now salt b
  | VerifyOtpReq b => VerifyOtp.POST db now b
  | LoginReq b => Login.POST env db now b
  | ForgotPasswordReq b => ForgotPassword.POST db now b
  | ResetPasswordReq salt b => ResetPassword.POST db now salt b
  | UpdatePasswordReq tok salt b => UpdatePassword.PATCH env tok db now salt b
  | ProfileReq tok b => Profile.PATCH env tok db now b
  | SettingsReq tok b => Settings.PATCH env tok db now b
  end.

(** What happens to the store: a request is served, or the TTL monitor
    passes. *)
Inductive Event : Type :=
| Serve (now : Z) (r : Request)
| TtlSweep (now : Z).

Definition step `{Bcrypt} (env : option string) (db : Db) (ev : Event) : Db :=
  match ev with
  | Serve now r => fst (handle env db now r)
  | TtlSweep now => Otps.ttlSweep now db
  end.

Fixpoint run `{Bcrypt} (env : option string) (db : Db) (evs : list Event) : Db :=
  match evs with
  | [] => db
  | ev :: evs' => run env (step env db ev) evs'
  end.

(** The states the application can be in: those a history of events leads to
    from the empty store. *)
Definition reachable `{Bcrypt} (env : option string) (db : Db) : Prop :=
  exists evs, db = run env emptyDb evs.

(** [ev] is a verify-otp request for the account of [e] that succeeds in
    [db]. *)
Definition verifies (e : string) (db : Db) (ev : Event) : bool :=
  match ev with
  | Serve now (VerifyOtpReq b) =>
      String.eqb (User.castEmail (VerifyOtp.email b)) (User.castEmail e)
      && (status (snd (VerifyOtp.POST db now b)) =? 200)%Z
  | _ => false
  end.

(** No event of the history [evs], played from [db], verifies the account of
    [e]. *)
Fixpoint neverVerified `{Bcrypt} (env : option string) (e : string) (db : Db)
  (evs : list Event) : bool :=
  match evs with
  | [] => true
  | ev :: evs' =>
      negb (verifies e db ev) && neverVerified env e (step env db ev) evs'
  end.

(** How the specification names a response (its section 7 taxonomy as the
    routes render it). *)
Definition outcome (r : Response) : Outcome :=
  let m := message r in
  if ((status r =? 200) || (status r =? 201))%Z then Success
  else if String.eqb m "A user with this email already exists" then DuplicateEmail
  else if String.eqb m "Invalid or expired verification code"
          || String.eqb m "Verification code has expired"
          || String.eqb m "Invalid or expired reset code" then InvalidOrExpiredCode
  else if String.eqb m "Invalid email or password" then InvalidCredentials
  else if String.eqb m "Please verify your email before logging in" then NotVerified
  else if String.eqb m "Incorrect current password" then IncorrectPassword
  else if String.eqb m "User not found" then NotFound
  else if String.eqb m "Unauthorized" then Unauthorized
  else ServerError.

(** The codes of (email, purpose) that have not expired at [now]. *)
Definition activeCodes (e : string) (k : Otp.kind) (now : Z) (db : Db) : list Otp.t :=
  filter (fun o => Otps.byEmailType e k o && (now <=? Otp.expiresAt o)%Z) (otps db).

(** The requests that pass the [User] schema's validation in the signup
    route. *)
Definition validSignup (b : Signup.body) : bool :=
  User.validName (User.castName (Signup.name b))
  && User.validEmail (User.castEmail (Signup.email b))
  && User.validRole (Js.or (Signup.role b) "user").

(** The invariant of the one-time-code collection. *)
Definition otpKey (o : Otp.t) : string * Otp.kind := (Otp.email o, Otp.type o).

Record Inv (db : Db) : Prop := {
  inv_otp_ids : Forall (fun o => Otp._id o < nextId db) (otps db);
  inv_otp_nodup : NoDup (map Otp._id (otps db));
  inv_otp_keys : NoDup (map otpKey (otps db));
  inv_verification :
    forall o, In o (otps db) -> Otp.type o = Otp.verification ->
              In (User.castEmail (Otp.email o)) (map User.email (users db))
}.

(* ------------------------------------------------------------------ *)
(** ** Vocabulary of the statements *)

(** The account and the code a successful signup writes. *)
Definition signedUpUser `{Bcrypt} (db : Db) (salt : string) (b : Signup.body) : User.t :=
  {| User._id := nextId db;
     User.name := User.castName (Signup.name b);
     User.email := User.castEmail (Signup.email b);
     User.password := bcrypt_hash (Signup.password b) salt;
     User.role := Js.or (Signup.role b) "user";
     User.isVerified := false;
     User.image := ""; User.phoneNumber := ""; User.bio := "";
     User.preferences := User.defaultPreferences |}.

Definition verificationCode (db : Db) (now : Z) (b : Signup.body) : Otp.t :=
  {| Otp._id := S (nextId db); Otp.email := Signup.email b; Otp.code := "123456";
     Otp.type := Otp.verification; Otp.expiresAt := (now + 600000)%Z |}.

Definition afterSignup `{Bcrypt} (db : Db) (now : Z) (salt : string) (b : Signup.body)
  : Db :=
  {| users := users db ++ [signedUpUser db salt b];
     otps := otps db ++ [verificationCode db now b];
     nextId := S (S (nextId db)) |}.

(** The account of [e] exists and is not verified. *)
Definition unverified (e : string) (db : Db) : Prop :=
  exists u, Users.findOne e db = Some u /\ User.isVerified u = false.

(** The credential and identity fields of an account. *)
Definition sameCredentials (u u' : User.t) : Prop :=
  User._id u' = User._id u
  /\ User.password u' = User.password u
  /\ User.email u' = User.email u
  /\ User.role u' = User.role u
  /\ User.isVerified u' = User.isVerified u.

(** A supplied key takes the request's value, an absent key keeps the
    stored one. *)
Definition merged {A : Type} (supplied : option A) (before after : A) : Prop :=
  match supplied with
  | None => after = before
  | Some v => after = v
  end.

(* ------------------------------------------------------------------ *)
(** ** lib/db.ts *)

Module DbConnection.

(** How a promise returned by [mongoose.connect] settles: with a connection,
    or rejected. A promise is identified with its settlement; calls are
    served one after the other, so a stored promise has settled by the time
    a later call awaits it. *)
Inductive settled : Type :=
| Resolved (connection : nat)
| Rejected.

(** [global.mongoose]. *)
Record cache : Type := { conn : option nat; promise : option settled }.

(** The cache the module creates when [global.mongoose] is not set. *)
Definition initial : cache := {| conn := None; promise := None |}.

(** The outcome of one call: the connection returned ([None] when the call
    throws) and whether the call started [mongoose.connect]. *)
Record outcome : Type := { returned : option nat; started : bool }.

(** [connectToDatabase()]; [attempt] is how [mongoose.connect] settles if
    this call starts it. *)
Definition connectToDatabase (attempt : settled) (cached : cache) : cache * outcome :=
  match conn cached with
  | Some c => (cached, {| returned := Some c; started := false |})
  | None =>
      let '(p, fresh) :=
        match promise cached with
        | Some p => (p, false)
        | None => (attempt, true)
        end in
      match p with
      | Resolved c =>
          ({| conn := Some c; promise := Some p |},
           {| returned := Some c; started := fresh |})
      | Rejected =>
          ({| conn := None; promise := None |},
           {| returned := None; started := fresh |})
      end
  end.

(** A sequence of calls, one per element of [attempts]. *)
Fixpoint calls (attempts : list settled) (cached : cache) : list outcome :=
  match attempts with
  | [] => []
  | a :: rest =>
      let '(cached', o) := connectToDatabase a cached in
      o :: calls rest cached'
  end.

End DbConnection.

(* ------------------------------------------------------------------ *)
(** ** components/ui/Input.tsx *)

Module Input.

(** [s.replace(/\s+/g, "-")]: every maximal run of white space becomes one
    dash; [inRun] tells that the previous character was white space. *)
Fixpoint replaceRuns (inRun : bool) (s : string) : string :=
  match s with
  | EmptyString => EmptyString
  | String c s' =>
      if Js.isSpace c
      then (if inRun then replaceRuns true s'
            else String "-"%char (replaceRuns true s'))
      else String c (replaceRuns false s')
  end.

(** The interpolation of [label?.toLowerCase().replace(/\s+/g, "-")] in the
    template literal: an absent label prints as [undefined]. *)
Definition slug (label : option string) : string :=
  match label with
  | None => "undefined"
  | Some l => replaceRuns false (Js.toLowerCase l)
  end.

(** [const inputId = id || `input-${...}`]. *)
Definition inputId (id label : option string) : string :=
  Js.or id ("input-" ++ slug label).

End Input.

(* ------------------------------------------------------------------ *)
(** ** Vocabulary of the further properties *)

(** [response.ok], as the pages test it: a status in the range 200-299. *)
Definition ok (r : Response) : bool :=
  ((200 <=? status r) && (status r <=? 299))%Z.

(** The identity of an account: its id, email and role. *)
Definition sameIdentity (u u' : User.t) : Prop :=
  User._id u' = User._id u
  /\ User.email u' = User.email u
  /\ User.role u' = User.role u.

(** No verification code is stored for the account of [e]. *)
Definition noVerificationCode (e : string) (db : Db) : Prop :=
  forall o, In o (otps db) -> Otp.type o = Otp.verification ->
            User.castEmail (Otp.email o) <> User.castEmail e.

(** Every stored code carries the email of an account. *)
Definition codesBelong (db : Db) : Prop :=
  forall o, In o (otps db) ->
            In (User.castEmail (Otp.email o)) (map User.email (users db)).

(** The paths of an account that no route writes after signup pass the
    schema's validation. *)
Definition accountValid (u : User.t) : Prop :=
  User.validEmail (User.email u) = true /\ User.validRole (User.role u) = true.

(** No character of [s] satisfies [p]. *)
Fixpoint noChar (p : ascii -> bool) (s : string) : bool :=
  match s with
  | EmptyString => true
  | String c s' => negb (p c) && noChar p s'
  end.

(* ------------------------------------------------------------------ *)
(** ** A test double of the hasher

    Used to run the handlers on concrete requests. The digest keeps the data
    in the clear behind a fixed header and ends with the salt. *)

Module Fake.

Definition header (data : string) : string := "$2a$10$" ++ data ++ "$".

Definition hash (data salt : string) : string := header data ++ salt.

Definition compare (data digest : string) : bool := prefix (header data) digest.

End Fake.

(* ------------------------------------------------------------------ *)
(** * Properties *)

(** ** The test double satisfies the hasher's contract *)

Lemma prefix_append (a b : string) : prefix a (a ++ b) = true.
Proof.
  induction a as [|c a IH]; simpl.
  - now destruct b.
  - destruct (ascii_dec c c); [assumption | congruence].
Qed.

Lemma fake_compare_hash (data salt : string) :
  Fake.compare data (Fake.hash data salt) = true.
Proof. apply prefix_append. Qed.

Lemma fake_hash_length (data salt : string) :
  6 <= String.length (Fake.hash data salt).
Proof. unfold Fake.hash, Fake.header. simpl. lia. Qed.

Definition fakeBcrypt : Bcrypt :=
  {| bcrypt_hash := Fake.hash;
     bcrypt_compare := Fake.compare;
     bcrypt_compare_hash := fake_compare_hash;
     bcrypt_hash_length := fake_hash_length |}.

(** ** The schema's validators on sample values *)

Example validEmail_samples :
  map User.validEmail
    ["a@x.com"; "first.last@shop-mail.co.uk"; "a@x"; "a..b@x.com"; "a@x.comm";
     "no at sign"; ""]
  = [true; true; false; false; false; false; false].
Proof. vm_compute. reflexivity. Qed.

Example castEmail_samples :
  map User.castEmail ["  A@X.Com "; "a@x.com"] = ["a@x.com"; "a@x.com"].
Proof. vm_compute. reflexivity. Qed.

Example or_samples :
  map (fun r => Js.or r "user") [None; Some ""; Some "user"; Some "admin"; Some "root"]
  = ["user"; "user"; "user"; "admin"; "root"].
Proof. reflexivity. Qed.

(** ** A worked history

    [a@x.com] signs up at instant 0 with password [secret1], verifies the
    address at 1000 and asks for a reset code at 2000; the code expires at
    902000. *)

Definition signupA : Signup.body :=
  {| Signup.name := "Ada"; Signup.email := "a@x.com";
     Signup.password := "secret1"; Signup.role := None |}.

Definition historyA : list Event :=
  [ Serve 0 (SignupReq "s0" signupA);
    Serve 1000 (VerifyOtpReq {| VerifyOtp.email := "a@x.com"; VerifyOtp.code := "123456" |});
    Serve 2000 (ForgotPasswordReq {| ForgotPassword.email := "a@x.com" |}) ].

Definition dbSignedUp : Db := run (H := fakeBcrypt) None emptyDb (firstn 1 historyA).
Definition dbVerified : Db := run (H := fakeBcrypt) None emptyDb (firstn 2 historyA).
Definition dbResetPending : Db := run (H := fakeBcrypt) None emptyDb historyA.

Example dbResetPending_contents :
  dbResetPending =
  {| users := [ {| User._id := 0; User.name := "Ada"; User.email := "a@x.com";
                   User.password := "$2a$10$secret1$s0"; User.role := "user";
                   User.isVerified := true; User.image := "";
                   User.phoneNumber := ""; User.bio := "";
                   User.preferences := User.defaultPreferences |} ];
     otps := [ {| Otp._id := 2; Otp.email := "a@x.com"; Otp.code := "123456";
                  Otp.type := Otp.reset; Otp.expiresAt := 902000 |} ];
     nextId := 3 |}.
Proof. vm_compute. reflexivity. Qed.

(** ** Facts about the list operations of the store *)


Section ListFacts.

Context {A : Type}.

Lemma map_updateFirst {B : Type} (g : A -> B) (p : A -> bool) (f : A -> A) (l : list A) :
  (forall x, g (f x) = g x) -> map g (updateFirst p f l) = map g l.
Proof.
  intros Hg. induction l as [|x l IH]; simpl; [reflexivity|].
  destruct (p x); simpl; [now rewrite Hg | now rewrite IH].
Qed.

Lemma length_updateFirst (p : A -> bool) (f : A -> A) (l : list A) :
  length (updateFirst p f l) = length l.
Proof.
  induction l as [|x l IH]; simpl; [reflexivity|].
  destruct (p x); simpl; congruence.
Qed.

Lemma updateFirst_none (p : A -> bool) (f : A -> A) (l : list A) :
  find p l = None -> updateFirst p f l = l.
Proof.
  induction l as [|x l IH]; simpl; [reflexivity|].
  destruct (p x); [discriminate | intros E; now rewrite IH].
Qed.

Lemma In_updateFirst (p : A -> bool) (f : A -> A) (l : list A) (y : A) :
  In y (updateFirst p f l) -> In y l \/ exists x, In x l /\ y = f x.
Proof.
  induction l as [|x l IH]; simpl; [tauto|].
  destruct (p x); simpl.
  - intros [<- | Hy]; [right; exists x; auto | auto].
  - intros [<- | Hy]; [auto|].
    destruct (IH Hy) as [H | (x' & H & ->)]; [auto | right; exists x'; auto].
Qed.

Lemma In_removeFirst (p : A -> bool) (l : list A) (x : A) :
  In x (removeFirst p l) -> In x l.
Proof.
  induction l as [|y l IH]; simpl; [tauto|].
  destruct (p y); simpl; intuition.
Qed.

Lemma NoDup_map_removeFirst {B : Type} (g : A -> B) (p : A -> bool) (l : list A) :
  NoDup (map g l) -> NoDup (map g (removeFirst p l)).
Proof.
  induction l as [|y l IH]; simpl; [auto|].
  intros H. inversion H as [|? ? Hn Hd]; subst.
  destruct (p y); simpl; [assumption|].
  constructor; [|auto].
  intros Hin. apply Hn. apply in_map_iff in Hin as (z & <- & Hz).
  apply in_map. eapply In_removeFirst; eauto.
Qed.

Lemma NoDup_map_filter {B : Type} (g : A -> B) (p : A -> bool) (l : list A) :
  NoDup (map g l) -> NoDup (map g (filter p l)).
Proof.
  induction l as [|y l IH]; simpl; [auto|].
  intros H. inversion H as [|? ? Hn Hd]; subst.
  destruct (p y); simpl; [|auto].
  constructor; [|auto].
  intros Hin. apply Hn. apply in_map_iff in Hin as (z & <- & Hz).
  apply in_map. apply filter_In in Hz. tauto.
Qed.

Lemma Forall_removeFirst (P : A -> Prop) (p : A -> bool) (l : list A) :
  Forall P l -> Forall P (removeFirst p l).
Proof.
  intros H. apply Forall_forall. intros x Hx.
  apply In_removeFirst in Hx. revert x Hx. now apply Forall_forall.
Qed.

Lemma find_app_last (p : A -> bool) (l : list A) (x : A) :
  find p (l ++ [x]) =
  match find p l with
  | Some y => Some y
  | None => if p x then Some x else None
  end.
Proof.
  induction l as [|y l IH]; simpl; [reflexivity|].
  now destruct (p y).
Qed.

Lemma existsb_find (p : A -> bool) (l : list A) :
  existsb p l = match find p l with Some _ => true | None => false end.
Proof.
  induction l as [|y l IH]; simpl; [reflexivity|].
  now destruct (p y).
Qed.

End ListFacts.

(* ------------------------------------------------------------------ *)
(** ** Forgot password *)

(** C1. The forgot-password route answers 200 in both cases, but not with
    the same body: on two stores that differ only in whether the account
    [a@x.com] exists, the same request is answered ["If an account exists
    with this email, we have sent a reset code."] without the account and
    ["Reset code sent to your email."] with it. The reset code is written
    only in the second run. *)
Theorem forgot_password_bodies_differ :
  let b := {| ForgotPassword.email := "a@x.com" |} in
  Users.findOne "a@x.com" emptyDb = None
  /\ ForgotPassword.POST emptyDb 2000 b =
     (emptyDb,
      json "If an account exists with this email, we have sent a reset code." 200)
  /\ users dbVerified = users dbResetPending
  /\ ForgotPassword.POST dbVerified 2000 b =
     (dbResetPending, json "Reset code sent to your email." 200)
  /\ String.eqb
       (message (snd (ForgotPassword.POST emptyDb 2000 b)))
       (message (snd (ForgotPassword.POST dbVerified 2000 b))) = false.
Proof. vm_compute. repeat split. Qed.

(* ------------------------------------------------------------------ *)
(** ** Expired codes *)

(** The verify-otp route re-checks the expiry date: a verification code
    found in the store after its [expiresAt] is refused and deleted, and the
    users are left as they were. *)
Lemma verify_otp_rejects_expired (db : Db) (now : Z) (b : VerifyOtp.body) (o : Otp.t) :
  Otps.findOne (VerifyOtp.email b) (VerifyOtp.code b) Otp.verification db = Some o ->
  (Otp.expiresAt o < now)%Z ->
  VerifyOtp.POST db now b =
    (Otps.deleteOne (Otp._id o) db, json "Verification code has expired" 400)
  /\ users (fst (VerifyOtp.POST db now b)) = users db
  /\ outcome (snd (VerifyOtp.POST db now b)) = InvalidOrExpiredCode.
Proof.
  intros Hfind Hexp. unfold VerifyOtp.POST. rewrite Hfind.
  assert (Hgt : (now >? Otp.expiresAt o)%Z = true) by (apply Z.gtb_lt; lia).
  rewrite Hgt. repeat split.
Qed.

(** C2. The reset-password route has no such check. In the store of the
    worked history the reset code of [a@x.com] expires at 902000 and has not
    been swept; submitted at 1000000 it is accepted: the answer is 200 and
    the password hash is replaced. On the same kind of input the verify-otp
    route refuses: the verification code issued at 0 (expiry 600000),
    submitted at 700000, is answered 400, deleted, and the account stays
    unverified. *)
Theorem reset_password_accepts_expired_code :
  let b := {| ResetPassword.email := "a@x.com"; ResetPassword.code := "123456";
              ResetPassword.newPassword := "hunter22" |} in
  let r := ResetPassword.POST (H := fakeBcrypt) dbResetPending 1000000 "s1" b in
  map Otp.expiresAt (otps dbResetPending) = [902000%Z]
  /\ snd r = json "Password updated successfully. You can now login." 200
  /\ map User.password (users dbResetPending) = ["$2a$10$secret1$s0"]
  /\ map User.password (users (fst r)) = ["$2a$10$hunter22$s1"]
  /\ otps (fst r) = []
  /\ let v := VerifyOtp.POST dbSignedUp 700000
                {| VerifyOtp.email := "a@x.com"; VerifyOtp.code := "123456" |} in
     map Otp.expiresAt (otps dbSignedUp) = [600000%Z]
     /\ snd v = json "Verification code has expired" 400
     /\ users (fst v) = users dbSignedUp
     /\ otps (fst v) = [].
Proof. vm_compute. repeat split. Qed.

(* ------------------------------------------------------------------ *)
(** ** Login *)

(** The login route never writes to the store. *)
Lemma login_keeps_store `{Bcrypt} (env : option string) (db : Db) (now : Z)
  (b : Login.body) :
  fst (Login.POST env db now b) = db.
Proof.
  unfold Login.POST. destruct (Users.findOne _ db) as [u|]; [|reflexivity].
  destruct (negb (User.isVerified u)); [reflexivity|].
  destruct (negb (bcrypt_compare _ _)); reflexivity.
Qed.

(** The order of the checks: an account that is found and not verified is
    answered 403 whatever the password. *)
Lemma login_unverified `{Bcrypt} (env : option string) (db : Db) (now : Z)
  (b : Login.body) (u : User.t) :
  Users.findOne (Login.email b) db = Some u ->
  User.isVerified u = false ->
  Login.POST env db now b =
    (db, jsonWith "Please verify your email before logging in" Unverified 403).
Proof.
  intros Hu Hv. unfold Login.POST. now rewrite Hu, Hv.
Qed.

(** C3. With a verified account for [e] and a password [p] that its hash
    does not verify, and no account for [e'], [login(e, p)] and
    [login(e', p')] give the same response, the 401
    ["Invalid email or password"] (InvalidCredentials), set no cookie and
    leave the store as it was. *)
Theorem login_invalid_credentials_indistinguishable `{Bcrypt}
  (env : option string) (db : Db) (now now' : Z) (e p e' p' : string) (u : User.t) :
  Users.findOne e db = Some u ->
  User.isVerified u = true ->
  bcrypt_compare p (User.password u) = false ->
  Users.findOne e' db = None ->
  let wrongPassword :=
    Login.POST env db now {| Login.email := e; Login.password := p |} in
  let noSuchUser :=
    Login.POST env db now' {| Login.email := e'; Login.password := p' |} in
  snd wrongPassword = snd noSuchUser
  /\ wrongPassword = (db, json "Invalid email or password" 401)
  /\ noSuchUser = (db, json "Invalid email or password" 401)
  /\ outcome (snd wrongPassword) = InvalidCredentials
  /\ cookie (snd wrongPassword) = None.
Proof.
  intros Hu Hv Hp Hn. cbv zeta. unfold Login.POST. simpl Login.email.
  simpl Login.password. rewrite Hu, Hn, Hv, Hp. simpl. repeat split.
Qed.

Lemma login_invalid_credentials_indistinguishable_witness :
  snd (Login.POST (H := fakeBcrypt) None dbVerified 5000
         {| Login.email := "a@x.com"; Login.password := "wrong" |})
  = snd (Login.POST (H := fakeBcrypt) None dbVerified 6000
           {| Login.email := "nouser@x.com"; Login.password := "anything" |}).
Proof.
  refine (proj1 (login_invalid_credentials_indistinguishable (H := fakeBcrypt)
            None dbVerified 5000 6000 "a@x.com" "wrong" "nouser@x.com" "anything"
            {| User._id := 0; User.name := "Ada"; User.email := "a@x.com";
               User.password := "$2a$10$secret1$s0"; User.role := "user";
               User.isVerified := true; User.image := "";
               User.phoneNumber := ""; User.bio := "";
               User.preferences := User.defaultPreferences |} _ _ _ _));
    vm_compute; reflexivity.
Defined.

(* ------------------------------------------------------------------ *)
(** ** The invariant of the one-time-code collection *)

(** The branches of [Users.create] that throw: [tac] closes each of them. *)
Ltac create_cases tac :=
  unfold Users.create;
  destruct (negb (User.validName _)); [tac|];
  destruct (negb (User.validEmail _)); [tac|];
  destruct (negb (User.validPassword _)); [tac|];
  destruct (negb (User.validRole _)); [tac|];
  destruct (existsb _ (users _)); [tac|].

Lemma NoDup_snoc {A : Type} (l : list A) (x : A) :
  NoDup l -> ~ In x l -> NoDup (l ++ [x]).
Proof.
  induction l as [|y l IH]; simpl; intros Hd Hx.
  - constructor; [tauto | constructor].
  - inversion Hd as [|? ? Hn Hd']; subst. constructor.
    + rewrite in_app_iff. simpl. intuition congruence.
    + apply IH; tauto.
Qed.

Lemma Inv_empty : Inv emptyDb.
Proof.
  constructor; simpl; try constructor. intros o [].
Qed.

(** Any change to the users that keeps the registered emails, and any
    advance of the id counter, keeps the invariant. *)
Lemma Inv_users (db : Db) (us : list User.t) (n : nat) :
  Inv db -> nextId db <= n ->
  incl (map User.email (users db)) (map User.email us) ->
  Inv {| users := us; otps := otps db; nextId := n |}.
Proof.
  intros [Hid Hnd Hk Hv] Hn Hincl. constructor; simpl; auto.
  eapply Forall_impl; [|exact Hid]. simpl. intros; lia.
Qed.

Lemma Inv_otp_insert (db : Db) (o : Otp.t) :
  Inv db -> Otp._id o = nextId db ->
  ~ In (otpKey o) (map otpKey (otps db)) ->
  (Otp.type o = Otp.verification ->
   In (User.castEmail (Otp.email o)) (map User.email (users db))) ->
  Inv {| users := users db; otps := otps db ++ [o]; nextId := S (nextId db) |}.
Proof.
  intros [Hid Hnd Hk Hv] Ho Hkey Hver. constructor; simpl.
  - apply Forall_app. split.
    + eapply Forall_impl; [|exact Hid]. simpl. intros; lia.
    + constructor; [lia | constructor].
  - rewrite map_app. simpl. apply NoDup_snoc; [assumption|].
    intros Hin. apply in_map_iff in Hin as (x & Hx & Hin).
    rewrite Forall_forall in Hid. specialize (Hid x Hin). lia.
  - rewrite map_app. simpl. now apply NoDup_snoc.
  - intros x Hx Ht. apply in_app_iff in Hx as [Hx | [<- | []]]; auto.
Qed.

Lemma Inv_deleteOne (db : Db) (i : nat) : Inv db -> Inv (Otps.deleteOne i db).
Proof.
  intros [Hid Hnd Hk Hv]. constructor; simpl.
  - now apply Forall_removeFirst.
  - now apply NoDup_map_removeFirst.
  - now apply NoDup_map_removeFirst.
  - intros o Ho. apply Hv. eapply In_removeFirst; eauto.
Qed.

Lemma Inv_ttlSweep (db : Db) (now : Z) : Inv db -> Inv (Otps.ttlSweep now db).
Proof.
  intros [Hid Hnd Hk Hv]. constructor; simpl.
  - apply Forall_forall. intros o Ho. apply filter_In in Ho as [Ho _].
    rewrite Forall_forall in Hid. auto.
  - now apply NoDup_map_filter.
  - now apply NoDup_map_filter.
  - intros o Ho. apply filter_In in Ho as [Ho _]. auto.
Qed.

Lemma byEmailType_key (e : string) (k : Otp.kind) (o : Otp.t) :
  Otps.byEmailType e k o = true <-> otpKey o = (e, k).
Proof.
  unfold Otps.byEmailType, otpKey. rewrite andb_true_iff, String.eqb_eq.
  destruct (Otp.type o), k; simpl; split;
    try (intros [-> _]; reflexivity);
    try (intros [_ E]; discriminate);
    try (intros E; inversion E; auto; fail);
    intros E; inversion E.
Qed.

Lemma byKey_byEmailType (e c : string) (k : Otp.kind) (o : Otp.t) :
  Otps.byKey e c k o = true -> Otps.byEmailType e k o = true.
Proof.
  unfold Otps.byKey, Otps.byEmailType. rewrite !andb_true_iff. tauto.
Qed.

Lemma Inv_upsert (db : Db) (e c : string) (expires : Z) :
  Inv db -> Inv (Otps.findOneAndUpdate_upsert e Otp.reset c expires db).
Proof.
  intros HI. unfold Otps.findOneAndUpdate_upsert.
  destruct (existsb _ (otps db)) eqn:Hex.
  - destruct HI as [Hid Hnd Hk Hv]. constructor; simpl.
    + apply Forall_forall. intros o Ho. rewrite Forall_forall in Hid.
      apply In_updateFirst in Ho as [Ho | (x & Hx & ->)]; [auto|].
      simpl. auto.
    + now rewrite map_updateFirst.
    + now rewrite map_updateFirst.
    + intros o Ho Ht. apply In_updateFirst in Ho as [Ho | (x & Hx & ->)]; [auto|].
      simpl in *. auto.
  - apply Inv_otp_insert; simpl; auto; [|discriminate].
    intros Hin. apply in_map_iff in Hin as (x & Hx & Hin).
    assert (Hf : existsb (Otps.byEmailType e Otp.reset) (otps db) = true).
    { apply existsb_exists. exists x. split; [assumption|].
      now apply byEmailType_key. }
    congruence.
Qed.

Lemma findOne_none_email (e : string) (db : Db) :
  Users.findOne e db = None ->
  ~ In (User.castEmail e) (map User.email (users db)).
Proof.
  unfold Users.findOne. intros Hn Hin.
  apply in_map_iff in Hin as (u & Hu & Hin).
  pose proof (find_none _ _ Hn u Hin) as Hb. unfold Users.byEmail in Hb.
  rewrite Hu, String.eqb_refl in Hb. discriminate.
Qed.

Lemma Inv_signup `{Bcrypt} (db : Db) (now : Z) (salt : string) (b : Signup.body) :
  Inv db -> Inv (fst (Signup.POST db now salt b)).
Proof.
  intros HI. unfold Signup.POST.
  destruct (Users.findOne _ db) eqn:Hfind; [assumption|].
  create_cases ltac:(assumption).
  set (u := {| User._id := nextId db |}).
  assert (HI1 : Inv {| users := users db ++ [u]; otps := otps db;
                       nextId := S (nextId db) |}).
  { apply Inv_users; auto. rewrite map_app. apply incl_appl, incl_refl. }
  unfold Otps.create.
  destruct (negb (User.nonEmpty (Signup.email b))); [assumption|].
  destruct (negb (User.nonEmpty "123456")); [assumption|].
  apply (Inv_otp_insert _ _ HI1); simpl; auto.
  - intros Hin. apply in_map_iff in Hin as (x & Hx & Hin).
    unfold otpKey in Hx. simpl in Hx. inversion Hx as [[He Ht]].
    apply (findOne_none_email _ _ Hfind). rewrite <- He.
    now apply (inv_verification _ HI).
  - intros _. rewrite map_app. apply in_app_iff. right. simpl. auto.
Qed.

Lemma Inv_handle `{Bcrypt} (env : option string) (db : Db) (now : Z) (r : Request) :
  Inv db -> Inv (fst (handle env db now r)).
Proof.
  intros HI. destruct r as [salt b|b|b|b|salt b|tok salt b|tok b|tok b]; simpl.
  - now apply Inv_signup.
  - unfold VerifyOtp.POST. destruct (Otps.findOne _ _ _ db) as [o|]; [|assumption].
    destruct (now >? Otp.expiresAt o)%Z; simpl.
    + now apply Inv_deleteOne.
    + apply Inv_deleteOne. unfold Users.findOneAndUpdate.
      apply Inv_users; auto. now rewrite map_updateFirst; [apply incl_refl|].
  - now rewrite login_keeps_store.
  - unfold ForgotPassword.POST. destruct (Users.findOne _ db); [|assumption].
    simpl. now apply Inv_upsert.
  - unfold ResetPassword.POST. destruct (Otps.findOne _ _ _ db) as [o|]; [|assumption].
    simpl. apply Inv_deleteOne. unfold Users.findOneAndUpdate.
    apply Inv_users; auto. now rewrite map_updateFirst; [apply incl_refl|].
  - unfold UpdatePassword.PATCH. destruct (getSession _ _ _); [|assumption].
    destruct (Users.findById _ db) as [u|]; [|assumption].
    destruct (negb (bcrypt_compare _ _)); [assumption|].
    unfold Users.savePassword. destruct (Users.validate _); [assumption|].
    simpl. apply Inv_users; auto. now rewrite map_updateFirst; [apply incl_refl|].
  - unfold Profile.PATCH. destruct (getSession _ _ _); [|assumption].
    simpl. apply Inv_users; auto. rewrite map_updateFirst; [apply incl_refl|].
    intros x. unfold Profile.update.
    destruct (Profile.image b), (Profile.phoneNumber b), (Profile.bio b),
      (Profile.name b); reflexivity.
  - unfold Settings.PATCH. destruct (getSession _ _ _) as [session|]; [|assumption].
    destruct (Settings.prefs b) as [p|]; [|assumption].
    assert (HI' : Inv (fst (Users.findByIdAndUpdate (Jwt.userId session)
                              (Settings.update p) db))).
    { simpl. apply Inv_users; auto. now rewrite map_updateFirst; [apply incl_refl|]. }
    destruct (Users.findByIdAndUpdate _ _ db) as [db1 [u|]]; assumption.
Qed.

Lemma Inv_step `{Bcrypt} (env : option string) (db : Db) (ev : Event) :
  Inv db -> Inv (step env db ev).
Proof.
  destruct ev; simpl; [apply Inv_handle | apply Inv_ttlSweep].
Qed.

Lemma Inv_run `{Bcrypt} (env : option string) (evs : list Event) (db : Db) :
  Inv db -> Inv (run env db evs).
Proof.
  revert db. induction evs as [|ev evs IH]; simpl; intros db HI; [assumption|].
  apply IH. now apply Inv_step.
Qed.

Lemma reachable_Inv `{Bcrypt} (env : option string) (db : Db) :
  reachable env db -> Inv db.
Proof.
  intros [evs ->]. apply Inv_run, Inv_empty.
Qed.

(* ------------------------------------------------------------------ *)
(** ** Replay of a consumed code *)

Lemma find_byKey_none (l : list Otp.t) (e c : string) (k : Otp.kind) :
  ~ In (e, k) (map otpKey l) -> find (Otps.byKey e c k) l = None.
Proof.
  intros Hn. destruct (find _ l) as [o|] eqn:Hf; [|reflexivity].
  apply find_some in Hf as [Hin Hb]. exfalso. apply Hn.
  apply byKey_byEmailType, byEmailType_key in Hb. rewrite <- Hb.
  now apply in_map.
Qed.

(** In a collection without duplicate ids and without two codes of the same
    email and purpose, deleting the code a lookup found leaves nothing for
    the same lookup to find. *)
Lemma find_removeFirst_replay (l : list Otp.t) (e c : string) (k : Otp.kind)
  (o : Otp.t) :
  NoDup (map Otp._id l) -> NoDup (map otpKey l) ->
  find (Otps.byKey e c k) l = Some o ->
  find (Otps.byKey e c k) (removeFirst (Otps.byId (Otp._id o)) l) = None.
Proof.
  induction l as [|x l IH]; simpl; [discriminate|].
  intros Hid Hk Hf.
  inversion Hid as [|? ? Hidx Hid']; subst.
  inversion Hk as [|? ? Hkx Hk']; subst.
  destruct (Otps.byKey e c k x) eqn:Hx.
  - inversion Hf; subst. unfold Otps.byId at 1. rewrite Nat.eqb_refl.
    apply find_byKey_none.
    apply byKey_byEmailType, byEmailType_key in Hx. now rewrite <- Hx.
  - assert (Hne : Otps.byId (Otp._id o) x = false).
    { unfold Otps.byId. apply Nat.eqb_neq. intros E. apply Hidx.
      rewrite E. apply in_map. now apply find_some in Hf. }
    rewrite Hne. simpl. rewrite Hx. now apply IH.
Qed.

Lemma verify_otp_status_200 (db : Db) (now : Z) (b : VerifyOtp.body) :
  status (snd (VerifyOtp.POST db now b)) = 200%Z ->
  exists o,
    Otps.findOne (VerifyOtp.email b) (VerifyOtp.code b) Otp.verification db = Some o
    /\ (now <= Otp.expiresAt o)%Z
    /\ VerifyOtp.POST db now b =
       (Otps.deleteOne (Otp._id o)
          (Users.findOneAndUpdate (VerifyOtp.email b) (User.set_isVerified true) db),
        json "Account verified successfully. You can now login." 200).
Proof.
  unfold VerifyOtp.POST.
  destruct (Otps.findOne _ _ _ db) as [o|]; [|discriminate].
  destruct (now >? Otp.expiresAt o)%Z eqn:Hgt; [discriminate|].
  intros _. exists o. repeat split.
  destruct (Z.gtb_spec now (Otp.expiresAt o)); [discriminate | assumption].
Qed.

Lemma reset_password_status_200 `{Bcrypt} (db : Db) (now : Z) (salt : string)
  (b : ResetPassword.body) :
  status (snd (ResetPassword.POST db now salt b)) = 200%Z ->
  exists o,
    Otps.findOne (ResetPassword.email b) (ResetPassword.code b) Otp.reset db = Some o
    /\ ResetPassword.POST db now salt b =
       (Otps.deleteOne (Otp._id o)
          (Users.findOneAndUpdate (ResetPassword.email b)
             (User.set_password (bcrypt_hash (ResetPassword.newPassword b) salt)) db),
        json "Password updated successfully. You can now login." 200).
Proof.
  unfold ResetPassword.POST.
  destruct (Otps.findOne _ _ _ db) as [o|]; [|discriminate].
  intros _. exists o. split; reflexivity.
Qed.

(** C4. In every reachable state, a verify-otp request that succeeds
    consumes its code: the same (email, code) submitted again, at any
    instant, is answered 400 ["Invalid or expired verification code"] and
    changes nothing; likewise a reset-password request that succeeds, for
    any later request with the same (email, code), which is answered 400
    ["Invalid or expired reset code"]. Both answers are
    InvalidOrExpiredCode. *)
Theorem consumed_code_cannot_be_replayed `{Bcrypt} (env : option string) (db : Db) :
  reachable env db ->
  (forall (now now' : Z) (b : VerifyOtp.body),
      status (snd (VerifyOtp.POST db now b)) = 200%Z ->
      let db' := fst (VerifyOtp.POST db now b) in
      VerifyOtp.POST db' now' b =
        (db', json "Invalid or expired verification code" 400)
      /\ outcome (snd (VerifyOtp.POST db' now' b)) = InvalidOrExpiredCode)
  /\ (forall (now now' : Z) (salt salt' : string) (b b' : ResetPassword.body),
      status (snd (ResetPassword.POST db now salt b)) = 200%Z ->
      ResetPassword.email b' = ResetPassword.email b ->
      ResetPassword.code b' = ResetPassword.code b ->
      let db' := fst (ResetPassword.POST db now salt b) in
      ResetPassword.POST db' now' salt' b' =
        (db', json "Invalid or expired reset code" 400)
      /\ outcome (snd (ResetPassword.POST db' now' salt' b')) = InvalidOrExpiredCode).
Proof.
  intros Hr. apply reachable_Inv in Hr. destruct Hr as [_ Hnd Hk _]. split.
  - intros now now' b Hs. apply verify_otp_status_200 in Hs as (o & Hf & _ & ->).
    cbv zeta. simpl fst.
    assert (Hnone : Otps.findOne (VerifyOtp.email b) (VerifyOtp.code b)
                      Otp.verification
                      (Otps.deleteOne (Otp._id o)
                         (Users.findOneAndUpdate (VerifyOtp.email b)
                            (User.set_isVerified true) db)) = None).
    { unfold Otps.findOne. simpl. now apply find_removeFirst_replay. }
    unfold VerifyOtp.POST at 1 2. rewrite Hnone. split; reflexivity.
  - intros now now' salt salt' b b' Hs He Hc.
    apply reset_password_status_200 in Hs as (o & Hf & ->).
    cbv zeta. simpl fst.
    assert (Hnone : Otps.findOne (ResetPassword.email b') (ResetPassword.code b')
                      Otp.reset
                      (Otps.deleteOne (Otp._id o)
                         (Users.findOneAndUpdate (ResetPassword.email b)
                            (User.set_password
                               (bcrypt_hash (ResetPassword.newPassword b) salt)) db))
                    = None).
    { unfold Otps.findOne. simpl. rewrite He, Hc. now apply find_removeFirst_replay. }
    unfold ResetPassword.POST at 1 2. rewrite Hnone. split; reflexivity.
Qed.

Lemma reachable_run `{Bcrypt} (env : option string) (evs : list Event) :
  reachable env (run env emptyDb evs).
Proof. now exists evs. Qed.

Lemma consumed_code_cannot_be_replayed_witness :
  (let b := {| VerifyOtp.email := "a@x.com"; VerifyOtp.code := "123456" |} in
   let db' := fst (VerifyOtp.POST dbSignedUp 1000 b) in
   VerifyOtp.POST db' 1001 b =
     (db', json "Invalid or expired verification code" 400))
  /\ (let b := {| ResetPassword.email := "a@x.com"; ResetPassword.code := "123456";
                  ResetPassword.newPassword := "hunter22" |} in
      let db' := fst (ResetPassword.POST (H := fakeBcrypt) dbResetPending 3000 "s1" b) in
      ResetPassword.POST (H := fakeBcrypt) db' 3001 "s2" b =
        (db', json "Invalid or expired reset code" 400)).
Proof.
  split.
  - refine (proj1 (proj1 (consumed_code_cannot_be_replayed (H := fakeBcrypt) None
                            dbSignedUp (reachable_run None _)) 1000%Z 1001%Z _ _)).
    vm_compute. reflexivity.
  - refine (proj1 (proj2 (consumed_code_cannot_be_replayed (H := fakeBcrypt) None
                            dbResetPending (reachable_run None _))
                     3000%Z 3001%Z "s1" "s2" _ _ _ _ _));
      vm_compute; reflexivity.
Defined.

(* ------------------------------------------------------------------ *)
(** ** At most one code per email and purpose *)

Lemma filter_key_at_most_one (l : list Otp.t) (key : string * Otp.kind)
  (p : Otp.t -> bool) :
  NoDup (map otpKey l) ->
  (forall o, p o = true -> otpKey o = key) ->
  length (filter p l) <= 1.
Proof.
  intros Hnd Hp. induction l as [|x l IH]; simpl; [lia|].
  inversion Hnd as [|? ? Hx Hnd']; subst.
  destruct (p x) eqn:Hpx; [|auto].
  assert (Hnil : filter p l = []).
  { destruct (filter p l) as [|y ys] eqn:Hf; [reflexivity|]. exfalso.
    assert (Hy : In y (filter p l)) by (rewrite Hf; now left).
    apply filter_In in Hy as [Hy Hpy]. apply Hx.
    rewrite (Hp x Hpx), <- (Hp y Hpy). now apply in_map. }
  rewrite Hnil. simpl. lia.
Qed.

Lemma Inv_active_at_most_one (db : Db) (e : string) (k : Otp.kind) (now : Z) :
  Inv db -> length (activeCodes e k now db) <= 1.
Proof.
  intros HI. unfold activeCodes.
  apply (filter_key_at_most_one _ (e, k)); [apply (inv_otp_keys _ HI)|].
  intros o Ho. apply andb_true_iff in Ho as [Ho _]. now apply byEmailType_key.
Qed.

Lemma Inv_stored_at_most_one (db : Db) (e : string) (k : Otp.kind) :
  Inv db -> length (filter (Otps.byEmailType e k) (otps db)) <= 1.
Proof.
  intros HI.
  apply (filter_key_at_most_one _ (e, k)); [apply (inv_otp_keys _ HI)|].
  intros o Ho. now apply byEmailType_key.
Qed.

(** Accounts are never deleted and never change their email. *)
Lemma emails_handle `{Bcrypt} (env : option string) (db : Db) (now : Z) (r : Request) :
  incl (map User.email (users db)) (map User.email (users (fst (handle env db now r)))).
Proof.
  destruct r as [salt b|b|b|b|salt b|tok salt b|tok b|tok b]; simpl.
  - unfold Signup.POST. destruct (Users.findOne _ db); [apply incl_refl|].
    create_cases ltac:(apply incl_refl).
    unfold Otps.create.
    destruct (negb (User.nonEmpty (Signup.email b)));
      [simpl; rewrite map_app; apply incl_appl, incl_refl|].
    destruct (negb (User.nonEmpty "123456"));
      simpl; rewrite map_app; apply incl_appl, incl_refl.
  - unfold VerifyOtp.POST. destruct (Otps.findOne _ _ _ db) as [o|]; [|apply incl_refl].
    destruct (now >? Otp.expiresAt o)%Z; simpl; [apply incl_refl|].
    now rewrite map_updateFirst; [apply incl_refl|].
  - rewrite login_keeps_store. apply incl_refl.
  - unfold ForgotPassword.POST. destruct (Users.findOne _ db); [|apply incl_refl].
    unfold Otps.findOneAndUpdate_upsert. destruct (existsb _ (otps db)); apply incl_refl.
  - unfold ResetPassword.POST. destruct (Otps.findOne _ _ _ db) as [o|]; [|apply incl_refl].
    simpl. now rewrite map_updateFirst; [apply incl_refl|].
  - unfold UpdatePassword.PATCH. destruct (getSession _ _ _); [|apply incl_refl].
    destruct (Users.findById _ db) as [u|]; [|apply incl_refl].
    destruct (negb (bcrypt_compare _ _)); [apply incl_refl|].
    unfold Users.savePassword. destruct (Users.validate _); [apply incl_refl|].
    simpl. now rewrite map_updateFirst; [apply incl_refl|].
  - unfold Profile.PATCH. destruct (getSession _ _ _); [|apply incl_refl].
    simpl. rewrite map_updateFirst; [apply incl_refl|].
    intros x. unfold Profile.update.
    destruct (Profile.image b), (Profile.phoneNumber b), (Profile.bio b),
      (Profile.name b); reflexivity.
  - unfold Settings.PATCH. destruct (getSession _ _ _) as [session|]; [|apply incl_refl].
    destruct (Settings.prefs b) as [p|]; [|apply incl_refl].
    assert (Hi : incl (map User.email (users db))
                   (map User.email
                      (users (fst (Users.findByIdAndUpdate (Jwt.userId session)
                                     (Settings.update p) db))))).
    { simpl. now rewrite map_updateFirst; [apply incl_refl|]. }
    destruct (Users.findByIdAndUpdate _ _ db) as [db1 [u|]]; assumption.
Qed.

Lemma emails_run `{Bcrypt} (env : option string) (evs : list Event) (db : Db) :
  incl (map User.email (users db)) (map User.email (users (run env db evs))).
Proof.
  revert db. induction evs as [|ev evs IH]; simpl; intros db; [apply incl_refl|].
  eapply incl_tran; [|apply IH].
  destruct ev; simpl; [apply emails_handle | apply incl_refl].
Qed.

Lemma findOne_some_email (e : string) (db : Db) :
  In (User.castEmail e) (map User.email (users db)) ->
  exists u, Users.findOne e db = Some u.
Proof.
  intros Hin. destruct (Users.findOne e db) as [u|] eqn:Hf; [now exists u|].
  now apply findOne_none_email in Hf.
Qed.

Lemma findOne_castEmail (e e' : string) (db : Db) :
  User.castEmail e' = User.castEmail e -> Users.findOne e' db = Users.findOne e db.
Proof.
  intros E. unfold Users.findOne, Users.byEmail. now rewrite E.
Qed.

Lemma signup_duplicate `{Bcrypt} (db : Db) (now : Z) (salt : string) (b : Signup.body) :
  In (User.castEmail (Signup.email b)) (map User.email (users db)) ->
  Signup.POST db now salt b = (db, json "A user with this email already exists" 400).
Proof.
  intros Hin. apply findOne_some_email in Hin as [u Hu].
  unfold Signup.POST. now rewrite Hu.
Qed.

Lemma signup_201_registers `{Bcrypt} (db : Db) (now : Z) (salt : string)
  (b : Signup.body) :
  status (snd (Signup.POST db now salt b)) = 201%Z ->
  In (User.castEmail (Signup.email b))
     (map User.email (users (fst (Signup.POST db now salt b)))).
Proof.
  unfold Signup.POST. destruct (Users.findOne _ db); [discriminate|].
  create_cases ltac:(discriminate).
  unfold Otps.create.
  destruct (negb (User.nonEmpty (Signup.email b))); [discriminate|].
  destruct (negb (User.nonEmpty "123456")); [discriminate|].
  intros _. simpl. rewrite map_app, in_app_iff. right. simpl. auto.
Qed.

(** The worked history, with the reset code asked for three times under
    three spellings of the same address. *)
Definition historySpellings : list Event :=
  [ Serve 0 (SignupReq "s0" signupA);
    Serve 1000 (VerifyOtpReq {| VerifyOtp.email := "a@x.com"; VerifyOtp.code := "123456" |});
    Serve 2000 (ForgotPasswordReq {| ForgotPassword.email := "a@x.com" |});
    Serve 2100 (ForgotPasswordReq {| ForgotPassword.email := "A@X.com" |});
    Serve 2200 (ForgotPasswordReq {| ForgotPassword.email := " a@x.com" |}) ].

(** C8. The forgot-password route finds the account by the normalised email
    but upserts the reset code under the email as typed. After the history
    above the store holds one account, [a@x.com], and three unexpired reset
    codes whose emails all normalise to it; each of them resets that
    account's password: two reset-password requests under two spellings are
    both answered 200. Counted by the exact string there is one code per
    email. *)
Theorem forgot_password_codes_per_spelling :
  let db := run (H := fakeBcrypt) None emptyDb historySpellings in
  let unexpiredReset (o : Otp.t) :=
    Otp.kind_eqb (Otp.type o) Otp.reset && (3000 <=? Otp.expiresAt o)%Z in
  map User.email (users db) = ["a@x.com"]
  /\ map Otp.email (filter unexpiredReset (otps db)) = ["a@x.com"; "A@X.com"; " a@x.com"]
  /\ map (fun o => User.castEmail (Otp.email o)) (filter unexpiredReset (otps db))
     = ["a@x.com"; "a@x.com"; "a@x.com"]
  /\ length (activeCodes "a@x.com" Otp.reset 3000 db) = 1
  /\ let r1 := ResetPassword.POST (H := fakeBcrypt) db 3000 "s1"
                 {| ResetPassword.email := "A@X.com"; ResetPassword.code := "123456";
                    ResetPassword.newPassword := "hunter22" |} in
     let r2 := ResetPassword.POST (H := fakeBcrypt) (fst r1) 3100 "s2"
                 {| ResetPassword.email := " a@x.com"; ResetPassword.code := "123456";
                    ResetPassword.newPassword := "hunter33" |} in
     status (snd r1) = 200%Z
     /\ map User.password (users (fst r1)) = ["$2a$10$hunter22$s1"]
     /\ status (snd r2) = 200%Z
     /\ map User.password (users (fst r2)) = ["$2a$10$hunter33$s2"]
     /\ map Otp.email (otps (fst r2)) = ["a@x.com"].
Proof. vm_compute. repeat split. Qed.

(** In every reachable state, for every email string, purpose and instant,
    at most one stored code carries exactly that email string and that
    purpose, hence at most one unexpired one. The forgot-password route
    keeps it so by writing over the stored reset code of the email string,
    and the signup route, which alone creates verification codes, succeeds
    at most once per account: after a signup answered 201, every later
    signup whose email normalises to the same address is answered 400
    ["A user with this email already exists"]. *)
Theorem at_most_one_active_code `{Bcrypt} (env : option string) (db : Db) :
  reachable env db ->
  (forall (e : string) (k : Otp.kind) (now : Z),
      length (activeCodes e k now db) <= 1)
  /\ (forall (now : Z) (b : ForgotPassword.body),
      length (filter (Otps.byEmailType (ForgotPassword.email b) Otp.reset)
                (otps (fst (ForgotPassword.POST db now b)))) <= 1)
  /\ (forall (now now' : Z) (salt salt' : string) (b b' : Signup.body)
             (evs : list Event),
      status (snd (Signup.POST db now salt b)) = 201%Z ->
      User.castEmail (Signup.email b') = User.castEmail (Signup.email b) ->
      let db' := run env (fst (Signup.POST db now salt b)) evs in
      Signup.POST db' now' salt' b' =
        (db', json "A user with this email already exists" 400)).
Proof.
  intros Hr. apply reachable_Inv in Hr. repeat split.
  - intros e k now. now apply Inv_active_at_most_one.
  - intros now b. apply Inv_stored_at_most_one.
    apply (Inv_handle env db now (ForgotPasswordReq b) Hr).
  - intros now now' salt salt' b b' evs Hs He. cbv zeta.
    apply signup_duplicate. rewrite He.
    apply (emails_run env evs). now apply signup_201_registers.
Qed.

Lemma at_most_one_active_code_witness :
  length (activeCodes "a@x.com" Otp.reset 2500 dbResetPending) <= 1.
Proof.
  exact (proj1 (at_most_one_active_code (H := fakeBcrypt) None dbResetPending
                  (reachable_run None historyA))
           "a@x.com" Otp.reset 2500%Z).
Defined.

(* ------------------------------------------------------------------ *)
(** ** Signup *)

Lemma validPassword_hash `{Bcrypt} (data salt : string) :
  User.validPassword (bcrypt_hash data salt) = true.
Proof.
  pose proof (bcrypt_hash_length data salt) as Hl. unfold User.validPassword.
  apply andb_true_iff. split; [|now apply Nat.leb_le].
  destruct (bcrypt_hash data salt); [simpl in Hl; lia | reflexivity].
Qed.

Lemma castEmail_nonEmpty (e : string) :
  User.nonEmpty (User.castEmail e) = true -> User.nonEmpty e = true.
Proof. destruct e; [discriminate | reflexivity]. Qed.

Lemma findOne_none_existsb (e : string) (db : Db) :
  Users.findOne e db = None ->
  existsb (fun u => String.eqb (User.email u) (User.castEmail e)) (users db) = false.
Proof.
  unfold Users.findOne. intros Hf. rewrite existsb_find.
  change (fun u => String.eqb (User.email u) (User.castEmail e)) with (Users.byEmail e).
  now rewrite Hf.
Qed.

Lemma signup_existing `{Bcrypt} (db : Db) (now : Z) (salt : string) (b : Signup.body)
  (u : User.t) :
  Users.findOne (Signup.email b) db = Some u ->
  Signup.POST db now salt b = (db, json "A user with this email already exists" 400).
Proof. intros Hu. unfold Signup.POST. now rewrite Hu. Qed.

Lemma signup_fresh_valid `{Bcrypt} (db : Db) (now : Z) (salt : string) (b : Signup.body) :
  Users.findOne (Signup.email b) db = None ->
  validSignup b = true ->
  Signup.POST db now salt b =
    (afterSignup db now salt b,
     jsonWith "User registered successfully. Please verify your email."
       (UserId (nextId db)) 201).
Proof.
  intros Hf Hv. unfold validSignup in Hv.
  apply andb_true_iff in Hv as [Hv Hrole]. apply andb_true_iff in Hv as [Hname Hemail].
  unfold Signup.POST, Users.create. rewrite Hf, Hname, Hemail, Hrole.
  rewrite validPassword_hash, (findOne_none_existsb _ _ Hf). simpl negb. cbv iota.
  unfold Otps.create.
  assert (He : User.nonEmpty (Signup.email b) = true).
  { apply castEmail_nonEmpty. unfold User.validEmail in Hemail.
    now apply andb_true_iff in Hemail as [Hemail _]. }
  rewrite He. simpl. reflexivity.
Qed.

Lemma signup_fresh_invalid `{Bcrypt} (db : Db) (now : Z) (salt : string)
  (b : Signup.body) :
  Users.findOne (Signup.email b) db = None ->
  validSignup b = false ->
  fst (Signup.POST db now salt b) = db
  /\ status (snd (Signup.POST db now salt b)) = 500%Z
  /\ message (snd (Signup.POST db now salt b)) = "Server error during registration".
Proof.
  intros Hf Hv. unfold Signup.POST, Users.create. rewrite Hf.
  unfold validSignup in Hv.
  destruct (User.validName _); simpl in *; [|repeat split].
  destruct (User.validEmail _); simpl in *; [|repeat split].
  rewrite validPassword_hash. simpl. rewrite Hv. simpl. repeat split.
Qed.

Lemma signup_201 `{Bcrypt} (db : Db) (now : Z) (salt : string) (b : Signup.body) :
  status (snd (Signup.POST db now salt b)) = 201%Z ->
  Users.findOne (Signup.email b) db = None /\ validSignup b = true.
Proof.
  intros Hs. destruct (Users.findOne (Signup.email b) db) as [u|] eqn:Hf.
  - rewrite (signup_existing _ _ _ _ _ Hf) in Hs. discriminate.
  - split; [reflexivity|]. destruct (validSignup b) eqn:Hv; [reflexivity|].
    destruct (signup_fresh_invalid db now salt b Hf Hv) as (_ & Hst & _).
    rewrite Hst in Hs. discriminate.
Qed.

(** C6, as the claim states it, fails on a request the schema rejects: with
    an empty name and a fresh email the route answers 500 and creates
    nothing. *)
Lemma signup_fresh_email_may_create_nothing :
  let b := {| Signup.name := ""; Signup.email := "b@x.com";
              Signup.password := "secret1"; Signup.role := None |} in
  Users.findOne (Signup.email b) emptyDb = None
  /\ Signup.POST (H := fakeBcrypt) emptyDb 0 "s0" b =
     (emptyDb,
      jsonWith "Server error during registration"
        (ErrorMessage (ValidationError "name")) 500).
Proof. vm_compute. split; reflexivity. Qed.

(** C6, amended. With an email already registered the signup route answers
    400 ["A user with this email already exists"] (DuplicateEmail) and
    leaves the store unchanged. With a fresh email and a request that passes
    the schema's validation (non-empty trimmed name, email matching the
    pattern, role absent, empty, "user" or "admin") it appends a User with
    the hashed password and isVerified=false, appends a verification code
    expiring 600000 ms after now, and answers 201 with the new user's id.
    With a fresh email and a request that fails validation it answers 500
    and leaves the store unchanged. *)
Theorem signup_duplicate_or_created `{Bcrypt} (db : Db) (now : Z) (salt : string)
  (b : Signup.body) :
  (forall u, Users.findOne (Signup.email b) db = Some u ->
     Signup.POST db now salt b =
       (db, json "A user with this email already exists" 400)
     /\ outcome (snd (Signup.POST db now salt b)) = DuplicateEmail)
  /\ (Users.findOne (Signup.email b) db = None -> validSignup b = true ->
      Signup.POST db now salt b =
        ({| users := users db ++
                     [ {| User._id := nextId db;
                          User.name := User.castName (Signup.name b);
                          User.email := User.castEmail (Signup.email b);
                          User.password := bcrypt_hash (Signup.password b) salt;
                          User.role := Js.or (Signup.role b) "user";
                          User.isVerified := false;
                          User.image := ""; User.phoneNumber := ""; User.bio := "";
                          User.preferences := User.defaultPreferences |} ];
            otps := otps db ++
                    [ {| Otp._id := S (nextId db); Otp.email := Signup.email b;
                         Otp.code := "123456"; Otp.type := Otp.verification;
                         Otp.expiresAt := (now + 10 * 60 * 1000)%Z |} ];
            nextId := S (S (nextId db)) |},
         jsonWith "User registered successfully. Please verify your email."
           (UserId (nextId db)) 201)
      /\ bcrypt_compare (Signup.password b)
           (bcrypt_hash (Signup.password b) salt) = true)
  /\ (Users.findOne (Signup.email b) db = None -> validSignup b = false ->
      fst (Signup.POST db now salt b) = db
      /\ status (snd (Signup.POST db now salt b)) = 500%Z).
Proof.
  repeat split.
  - now apply (signup_existing _ _ _ _ u).
  - rewrite (signup_existing _ _ _ _ u) by assumption. reflexivity.
  - now apply signup_fresh_valid.
  - apply bcrypt_compare_hash.
  - now apply signup_fresh_invalid.
  - now apply signup_fresh_invalid.
Qed.

Lemma signup_duplicate_or_created_witness :
  Signup.POST (H := fakeBcrypt) dbSignedUp 50 "s9" signupA =
    (dbSignedUp, json "A user with this email already exists" 400)
  /\ Signup.POST (H := fakeBcrypt) emptyDb 0 "s0" signupA =
     (dbSignedUp,
      jsonWith "User registered successfully. Please verify your email."
        (UserId 0) 201).
Proof.
  split.
  - refine (proj1 (proj1 (signup_duplicate_or_created (H := fakeBcrypt)
                            dbSignedUp 50 "s9" signupA)
                     {| User._id := 0; User.name := "Ada"; User.email := "a@x.com";
                        User.password := "$2a$10$secret1$s0"; User.role := "user";
                        User.isVerified := false; User.image := "";
                        User.phoneNumber := ""; User.bio := "";
                        User.preferences := User.defaultPreferences |} _)).
    vm_compute. reflexivity.
  - refine (proj1 (proj1 (proj2 (signup_duplicate_or_created (H := fakeBcrypt)
                                   emptyDb 0 "s0" signupA)) _ _));
      vm_compute; reflexivity.
Defined.

(** C10, as the claim states it, fails on a request whose role field is
    present but empty: the stored role is "user". *)
Lemma signup_empty_role_defaults :
  let b := {| Signup.name := "Ada"; Signup.email := "a@x.com";
              Signup.password := "secret1"; Signup.role := Some "" |} in
  status (snd (Signup.POST (H := fakeBcrypt) emptyDb 0 "s0" b)) = 201%Z
  /\ map User.role (users (fst (Signup.POST (H := fakeBcrypt) emptyDb 0 "s0" b)))
     = ["user"].
Proof. vm_compute. split; reflexivity. Qed.

(** C10, amended. The signup route takes no session. Whenever it answers
    201, the account it created carries the role [role || "user"]: "admin"
    when the request says "admin", and "user" exactly when the role field is
    absent, empty or "user". A request whose role is anything else creates
    no account. *)
Theorem signup_stores_requested_role `{Bcrypt} (db : Db) (now : Z) (salt : string)
  (b : Signup.body) :
  status (snd (Signup.POST db now salt b)) = 201%Z ->
  let created := signedUpUser db salt b in
  users (fst (Signup.POST db now salt b)) = (users db ++ [created])%list
  /\ User.role created = Js.or (Signup.role b) "user"
  /\ (Signup.role b = Some "admin" -> User.role created = "admin")
  /\ (User.role created = "user" <->
      Signup.role b = None \/ Signup.role b = Some "" \/ Signup.role b = Some "user")
  /\ (Signup.role b = None \/ Signup.role b = Some ""
      \/ Signup.role b = Some "user" \/ Signup.role b = Some "admin").
Proof.
  intros Hs. destruct (signup_201 _ _ _ _ Hs) as [Hf Hv].
  rewrite (signup_fresh_valid _ _ _ _ Hf Hv). cbv zeta. simpl.
  split; [reflexivity|]. split; [reflexivity|].
  unfold validSignup in Hv. apply andb_true_iff in Hv as [_ Hrole].
  unfold User.validRole in Hrole. apply orb_true_iff in Hrole.
  rewrite !String.eqb_eq in Hrole.
  destruct (Signup.role b) as [[|c r]|] eqn:Hr; simpl in *;
    repeat split; intros; try discriminate; auto;
    try (destruct Hrole as [E | E]; rewrite E; auto; fail);
    try (intuition congruence).
Qed.

Lemma signup_stores_requested_role_witness :
  let b := {| Signup.name := "Eve"; Signup.email := "eve@x.com";
              Signup.password := "secret1"; Signup.role := Some "admin" |} in
  User.role (signedUpUser (H := fakeBcrypt) dbVerified "s3" b) = "admin".
Proof.
  refine (proj1 (proj2 (proj2 (signup_stores_requested_role (H := fakeBcrypt)
                                 dbVerified 7000 "s3"
                                 {| Signup.name := "Eve"; Signup.email := "eve@x.com";
                                    Signup.password := "secret1";
                                    Signup.role := Some "admin" |} _))) _);
    vm_compute; reflexivity.
Defined.

(* ------------------------------------------------------------------ *)
(** ** Login before verification *)

Lemma find_updateFirst_same {A : Type} (p q : A -> bool) (f : A -> A) (l : list A)
  (x : A) :
  (forall a, p (f a) = p a) ->
  find p l = Some x ->
  find p (updateFirst q f l) = Some x \/ find p (updateFirst q f l) = Some (f x).
Proof.
  intros Hp. induction l as [|a l IH]; simpl; [discriminate|].
  destruct (q a) eqn:Hq; simpl.
  - rewrite Hp. destruct (p a); [intros E; inversion E; subst; auto | auto].
  - destruct (p a); auto.
Qed.

Lemma find_updateFirst_disjoint {A : Type} (p q : A -> bool) (f : A -> A)
  (l : list A) :
  (forall a, p (f a) = p a) ->
  (forall a, p a = true -> q a = false) ->
  find p (updateFirst q f l) = find p l.
Proof.
  intros Hp Hd. induction l as [|a l IH]; simpl; [reflexivity|].
  destruct (q a) eqn:Hq; simpl.
  - rewrite Hp. destruct (p a) eqn:Hpa; [|reflexivity].
    rewrite (Hd a Hpa) in Hq. discriminate.
  - now rewrite IH.
Qed.

(** An update of the users that touches neither [email] nor [isVerified]
    keeps an unverified account unverified. *)
Lemma unverified_update (e : string) (q : User.t -> bool) (f : User.t -> User.t)
  (db : Db) (os : list Otp.t) (n : nat) :
  (forall u, User.email (f u) = User.email u) ->
  (forall u, User.isVerified (f u) = User.isVerified u) ->
  unverified e db ->
  unverified e {| users := updateFirst q f (users db); otps := os; nextId := n |}.
Proof.
  intros He Hv (u & Hu & Hf). unfold unverified, Users.findOne in *. simpl.
  destruct (find_updateFirst_same (Users.byEmail e) q f (users db) u) as [E | E];
    auto.
  - intros a. unfold Users.byEmail. now rewrite He.
  - exists u. auto.
  - exists (f u). rewrite Hv. auto.
Qed.

Lemma unverified_otps (e : string) (db : Db) (os : list Otp.t) (n : nat) :
  unverified e db -> unverified e {| users := users db; otps := os; nextId := n |}.
Proof. intros H. exact H. Qed.

Lemma unverified_append (e : string) (db : Db) (u : User.t) (os : list Otp.t)
  (n : nat) :
  unverified e db ->
  unverified e {| users := users db ++ [u]; otps := os; nextId := n |}.
Proof.
  intros (x & Hx & Hv). exists x. unfold Users.findOne in *. simpl.
  rewrite find_app_last, Hx. auto.
Qed.

Lemma profile_update_email (b : Profile.body) (u : User.t) :
  User.email (Profile.update b u) = User.email u.
Proof.
  unfold Profile.update.
  destruct (Profile.image b), (Profile.phoneNumber b), (Profile.bio b),
    (Profile.name b); reflexivity.
Qed.

Lemma profile_update_isVerified (b : Profile.body) (u : User.t) :
  User.isVerified (Profile.update b u) = User.isVerified u.
Proof.
  unfold Profile.update.
  destruct (Profile.image b), (Profile.phoneNumber b), (Profile.bio b),
    (Profile.name b); reflexivity.
Qed.

Lemma unverified_step `{Bcrypt} (env : option string) (e : string) (db : Db)
  (ev : Event) :
  unverified e db -> verifies e db ev = false -> unverified e (step env db ev).
Proof.
  intros Hu Hnv. destruct ev as [now r|now]; [|exact Hu].
  destruct r as [salt b|b|b|b|salt b|tok salt b|tok b|tok b]; simpl in *.
  - unfold Signup.POST. destruct (Users.findOne _ db); [assumption|].
    create_cases ltac:(assumption).
    unfold Otps.create.
    destruct (negb (User.nonEmpty (Signup.email b)));
      [now apply unverified_append|].
    destruct (negb (User.nonEmpty "123456")); now apply unverified_append.
  - revert Hnv. unfold VerifyOtp.POST.
    destruct (Otps.findOne _ _ _ db) as [o|]; [|auto].
    destruct (now >? Otp.expiresAt o)%Z; simpl; [auto|].
    rewrite andb_true_r. intros Hne. apply String.eqb_neq in Hne.
    destruct Hu as (u & Hu & Hv). exists u. split; [|assumption].
    unfold Users.findOne in *. simpl. rewrite find_updateFirst_disjoint; auto.
    intros a Ha. unfold Users.byEmail in *. apply String.eqb_eq in Ha.
    apply String.eqb_neq. congruence.
  - now rewrite login_keeps_store.
  - unfold ForgotPassword.POST. destruct (Users.findOne _ db); [|assumption].
    unfold Otps.findOneAndUpdate_upsert. destruct (existsb _ (otps db)); exact Hu.
  - unfold ResetPassword.POST. destruct (Otps.findOne _ _ _ db) as [o|]; [|assumption].
    simpl. now apply unverified_update.
  - unfold UpdatePassword.PATCH. destruct (getSession _ _ _); [|assumption].
    destruct (Users.findById _ db) as [u|]; [|assumption].
    destruct (negb (bcrypt_compare _ _)); [assumption|].
    unfold Users.savePassword. destruct (Users.validate _); [assumption|].
    simpl. now apply unverified_update.
  - unfold Profile.PATCH. destruct (getSession _ _ _); [|assumption].
    simpl. apply unverified_update; auto using profile_update_email,
      profile_update_isVerified.
  - unfold Settings.PATCH. destruct (getSession _ _ _) as [session|]; [|assumption].
    destruct (Settings.prefs b) as [p|]; [|assumption].
    assert (Hu' : unverified e (fst (Users.findByIdAndUpdate (Jwt.userId session)
                                       (Settings.update p) db))).
    { simpl. now apply unverified_update. }
    destruct (Users.findByIdAndUpdate _ _ db) as [db1 [u|]]; assumption.
Qed.

Lemma unverified_run `{Bcrypt} (env : option string) (e : string)
  (evs : list Event) (db : Db) :
  unverified e db -> neverVerified env e db evs = true ->
  unverified e (run env db evs).
Proof.
  revert db. induction evs as [|ev evs IH]; simpl; intros db Hu Hn; [assumption|].
  apply andb_true_iff in Hn as [Hv Hn]. apply negb_true_iff in Hv.
  apply IH; [now apply unverified_step | assumption].
Qed.

Lemma unverified_afterSignup `{Bcrypt} (db : Db) (now : Z) (salt : string)
  (b : Signup.body) :
  Users.findOne (Signup.email b) db = None ->
  Users.findOne (Signup.email b) (afterSignup db now salt b)
  = Some (signedUpUser db salt b).
Proof.
  intros Hf. unfold Users.findOne in *. simpl. rewrite find_app_last, Hf.
  unfold Users.byEmail. simpl. now rewrite String.eqb_refl.
Qed.

(** C5. After a signup answered 201, and for as long as no verify-otp
    request for that account has succeeded (whatever other requests and TTL
    sweeps happen in between), login with the account's email is answered
    403 ["Please verify your email before logging in"] (NotVerified) for
    every password. Right after the signup the stored hash does verify the
    signup password, so this includes the correct one: the route looks the
    user up, then checks [isVerified], and only then compares the
    password. *)
Theorem login_before_verification_not_verified `{Bcrypt} (env : option string)
  (db : Db) (now : Z) (salt : string) (b : Signup.body) (evs : list Event) :
  status (snd (Signup.POST db now salt b)) = 201%Z ->
  let db1 := fst (Signup.POST db now salt b) in
  neverVerified env (Signup.email b) db1 evs = true ->
  let db' := run env db1 evs in
  (exists u, Users.findOne (Signup.email b) db1 = Some u
             /\ User.isVerified u = false
             /\ bcrypt_compare (Signup.password b) (User.password u) = true)
  /\ (forall (now' : Z) (p : string),
        Login.POST env db' now' {| Login.email := Signup.email b; Login.password := p |}
        = (db', jsonWith "Please verify your email before logging in" Unverified 403)
        /\ outcome (snd (Login.POST env db' now'
                           {| Login.email := Signup.email b; Login.password := p |}))
           = NotVerified).
Proof.
  intros Hs. destruct (signup_201 _ _ _ _ Hs) as [Hf Hv].
  rewrite (signup_fresh_valid _ _ _ _ Hf Hv). cbv zeta. simpl fst. intros Hn.
  pose proof (unverified_afterSignup db now salt b Hf) as Hnew.
  split.
  - exists (signedUpUser db salt b). repeat split; [assumption|].
    simpl. apply bcrypt_compare_hash.
  - assert (Hu : unverified (Signup.email b) (afterSignup db now salt b)).
    { exists (signedUpUser db salt b). split; [assumption | reflexivity]. }
    destruct (unverified_run env _ evs _ Hu Hn) as (u & Hfu & Hvu).
    intros now' p.
    rewrite (login_unverified env _ now' _ u) by assumption.
    split; reflexivity.
Qed.

Lemma login_before_verification_not_verified_witness :
  let db' := run (H := fakeBcrypt) None dbSignedUp
               [ Serve 100 (ForgotPasswordReq {| ForgotPassword.email := "a@x.com" |});
                 Serve 200 (VerifyOtpReq {| VerifyOtp.email := "a@x.com";
                                            VerifyOtp.code := "000000" |});
                 TtlSweep 300 ] in
  Login.POST (H := fakeBcrypt) None db' 400
    {| Login.email := "a@x.com"; Login.password := "secret1" |}
  = (db', jsonWith "Please verify your email before logging in" Unverified 403).
Proof.
  refine (proj1 (proj2 (login_before_verification_not_verified (H := fakeBcrypt)
                          None emptyDb 0 "s0" signupA
                          [ Serve 100 (ForgotPasswordReq
                                         {| ForgotPassword.email := "a@x.com" |});
                            Serve 200 (VerifyOtpReq
                                         {| VerifyOtp.email := "a@x.com";
                                            VerifyOtp.code := "000000" |});
                            TtlSweep 300 ] _ _) 400%Z "secret1"));
    vm_compute; reflexivity.
Defined.

(* ------------------------------------------------------------------ *)
(** ** Password reset *)

Lemma find_updateFirst_self {A : Type} (p : A -> bool) (f : A -> A) (l : list A)
  (x : A) :
  (forall a, p (f a) = p a) ->
  find p l = Some x ->
  find p (updateFirst p f l) = Some (f x).
Proof.
  intros Hp. induction l as [|a l IH]; simpl; [discriminate|].
  destruct (p a) eqn:Hpa; simpl.
  - rewrite Hp, Hpa. intros E. now inversion E.
  - now rewrite Hpa.
Qed.

Lemma jwt_verify_sign (p : Jwt.payload) (secret : string) (now : Z) :
  Jwt.verify (Jwt.sign p secret now) secret now = Some p.
Proof.
  unfold Jwt.verify, Jwt.sign. simpl. rewrite String.eqb_refl.
  assert (E : (now / 1000 <? now / 1000 + 86400)%Z = true) by (apply Z.ltb_lt; lia).
  now rewrite E.
Qed.

(** C7. After a reset-password request answered 200 for a verified account,
    the account's stored hash is the digest of the new password; login with
    the new password is answered 200, with a session cookie that
    [getSession] accepts, and login with any password [old] that this digest
    does not verify (the previous password, when the hasher tells it from
    the new one) is answered 401 ["Invalid email or password"]
    (InvalidCredentials). *)
Theorem reset_password_replaces_password `{Bcrypt} (env : option string) (db : Db)
  (now : Z) (salt : string) (b : ResetPassword.body) (u : User.t) (old : string) :
  Users.findOne (ResetPassword.email b) db = Some u ->
  User.isVerified u = true ->
  status (snd (ResetPassword.POST db now salt b)) = 200%Z ->
  bcrypt_compare old (bcrypt_hash (ResetPassword.newPassword b) salt) = false ->
  let db' := fst (ResetPassword.POST db now salt b) in
  let digest := bcrypt_hash (ResetPassword.newPassword b) salt in
  Users.findOne (ResetPassword.email b) db' = Some (User.set_password digest u)
  /\ (forall now' : Z,
        Login.POST env db' now'
          {| Login.email := ResetPassword.email b; Login.password := old |}
        = (db', json "Invalid email or password" 401))
  /\ (forall now' : Z,
        let r := Login.POST env db' now'
                   {| Login.email := ResetPassword.email b;
                      Login.password := ResetPassword.newPassword b |} in
        fst r = db'
        /\ status (snd r) = 200%Z
        /\ message (snd r) = "Login successful"
        /\ extra (snd r) =
           LoginUser (User._id u) (User.name u) (User.email u) (User.role u)
        /\ getSession env (cookie (snd r)) now' =
           Some {| Jwt.userId := User._id u; Jwt.role := User.role u |}).
Proof.
  intros Hu Hv Hs Hold.
  apply reset_password_status_200 in Hs as (o & _ & ->). cbv zeta. simpl fst.
  assert (Hfind : Users.findOne (ResetPassword.email b)
                    (Otps.deleteOne (Otp._id o)
                       (Users.findOneAndUpdate (ResetPassword.email b)
                          (User.set_password
                             (bcrypt_hash (ResetPassword.newPassword b) salt)) db))
                  = Some (User.set_password
                            (bcrypt_hash (ResetPassword.newPassword b) salt) u)).
  { unfold Users.findOne in *. simpl. now apply find_updateFirst_self. }
  split; [exact Hfind|]. split; intros now'; unfold Login.POST; simpl Login.email;
    simpl Login.password; rewrite Hfind; simpl; rewrite Hv; simpl.
  - now rewrite Hold.
  - rewrite bcrypt_compare_hash. simpl. repeat split. apply jwt_verify_sign.
Qed.

Lemma reset_password_replaces_password_witness :
  let b := {| ResetPassword.email := "a@x.com"; ResetPassword.code := "123456";
              ResetPassword.newPassword := "hunter22" |} in
  let db' := fst (ResetPassword.POST (H := fakeBcrypt) dbResetPending 3000 "s1" b) in
  Login.POST (H := fakeBcrypt) None db' 4000
    {| Login.email := "a@x.com"; Login.password := "secret1" |}
  = (db', json "Invalid email or password" 401).
Proof.
  refine (proj1 (proj2 (reset_password_replaces_password (H := fakeBcrypt) None
                          dbResetPending 3000 "s1"
                          {| ResetPassword.email := "a@x.com";
                             ResetPassword.code := "123456";
                             ResetPassword.newPassword := "hunter22" |}
                          {| User._id := 0; User.name := "Ada";
                             User.email := "a@x.com";
                             User.password := "$2a$10$secret1$s0";
                             User.role := "user"; User.isVerified := true;
                             User.image := ""; User.phoneNumber := "";
                             User.bio := "";
                             User.preferences := User.defaultPreferences |}
                          "secret1" _ _ _ _)) 4000%Z);
    vm_compute; reflexivity.
Defined.

(* ------------------------------------------------------------------ *)
(** ** Profile and preferences *)

Lemma Forall2_updateFirst {A : Type} (q : A -> bool) (f : A -> A) (l : list A) :
  Forall2 (fun x y => y = x \/ (q x = true /\ y = f x)) l (updateFirst q f l).
Proof.
  induction l as [|a l IH]; simpl; [constructor|].
  destruct (q a) eqn:Hq; constructor; auto.
  clear. induction l; constructor; auto.
Qed.

Lemma profile_update_frame (b : Profile.body) (u : User.t) :
  sameCredentials u (Profile.update b u)
  /\ User.preferences (Profile.update b u) = User.preferences u
  /\ merged (option_map User.castName (Profile.name b)) (User.name u)
       (User.name (Profile.update b u))
  /\ merged (Profile.bio b) (User.bio u) (User.bio (Profile.update b u))
  /\ merged (Profile.phoneNumber b) (User.phoneNumber u)
       (User.phoneNumber (Profile.update b u))
  /\ merged (Profile.image b) (User.image u) (User.image (Profile.update b u)).
Proof.
  unfold Profile.update, sameCredentials.
  destruct (Profile.image b), (Profile.phoneNumber b), (Profile.bio b),
    (Profile.name b); simpl; repeat split.
Qed.

Lemma settings_update_frame (p : Settings.preferences) (u : User.t) :
  sameCredentials u (Settings.update p u)
  /\ User.name (Settings.update p u) = User.name u
  /\ User.bio (Settings.update p u) = User.bio u
  /\ User.phoneNumber (Settings.update p u) = User.phoneNumber u
  /\ User.image (Settings.update p u) = User.image u
  /\ merged (Settings.notificationsEnabled p)
       (User.notificationsEnabled (User.preferences u))
       (User.notificationsEnabled (User.preferences (Settings.update p u)))
  /\ merged (Settings.darkMode p) (User.darkMode (User.preferences u))
       (User.darkMode (User.preferences (Settings.update p u)))
  /\ merged (Settings.newsletterSubscribed p)
       (User.newsletterSubscribed (User.preferences u))
       (User.newsletterSubscribed (User.preferences (Settings.update p u))).
Proof.
  unfold Settings.update, sameCredentials.
  destruct (Settings.newsletterSubscribed p), (Settings.darkMode p),
    (Settings.notificationsEnabled p); simpl; repeat split.
Qed.

Lemma sameCredentials_refl (u : User.t) : sameCredentials u u.
Proof. unfold sameCredentials. repeat split. Qed.

(** Updating the first [q]-element: the list splits around the element the
    lookup finds, nothing before it satisfies [q], and only it is replaced. *)
Lemma updateFirst_split {A : Type} (q : A -> bool) (f : A -> A) (l : list A) (u : A) :
  find q l = Some u ->
  exists before after,
    l = (before ++ u :: after)%list
    /\ Forall (fun x => q x = false) before
    /\ updateFirst q f l = (before ++ f u :: after)%list.
Proof.
  induction l as [|x l IH]; simpl; [discriminate|].
  destruct (q x) eqn:Hq.
  - intros E. inversion E; subst. exists [], l. repeat split. constructor.
  - intros Hf. destruct (IH Hf) as (before & after & -> & Hb & ->).
    exists (x :: before), after. repeat split. now constructor.
Qed.

Lemma db_eta (db : Db) :
  {| users := users db; otps := otps db; nextId := nextId db |} = db.
Proof. now destruct db. Qed.

(** C9. A profile or preferences PATCH without a valid session is answered
    401 ["Unauthorized"] and changes nothing. With a valid session it leaves
    the one-time codes alone and writes exactly one account, the one
    [Users.findById] finds for the session's user id: the stored accounts
    before and after it are untouched, and it becomes [Profile.update b u]
    (respectively [Settings.update p u]), which the response returns. That
    update keeps the id, password hash, email, role and verification flag,
    gives every field the request supplies the supplied value (the name
    trimmed) and keeps every field it omits. When no account has the
    session's id, or a preferences PATCH has no preferences object, nothing
    changes. *)
Theorem patch_is_partial_and_keeps_credentials (env : option string)
  (tok : option Jwt.token) (db : Db) (now : Z) :
  (getSession env tok now = None ->
     (forall b, Profile.PATCH env tok db now b = (db, json "Unauthorized" 401))
     /\ (forall b, Settings.PATCH env tok db now b = (db, json "Unauthorized" 401))
     /\ outcome (json "Unauthorized" 401) = Unauthorized)
  /\ (forall session, getSession env tok now = Some session ->
        (forall b,
            let r := Profile.PATCH env tok db now b in
            otps (fst r) = otps db
            /\ match Users.findById (Jwt.userId session) db with
               | None => fst r = db
               | Some u =>
                   exists before after,
                     users db = (before ++ u :: after)%list
                     /\ Forall (fun x => User._id x <> Jwt.userId session) before
                     /\ users (fst r) = (before ++ Profile.update b u :: after)%list
                     /\ snd r = jsonWith "Profile updated successfully"
                                  (UpdatedUser (Some (Profile.update b u))) 200
               end)
        /\ (forall b,
            let r := Settings.PATCH env tok db now b in
            otps (fst r) = otps db
            /\ match Settings.prefs b, Users.findById (Jwt.userId session) db with
               | Some p, Some u =>
                   exists before after,
                     users db = (before ++ u :: after)%list
                     /\ Forall (fun x => User._id x <> Jwt.userId session) before
                     /\ users (fst r) = (before ++ Settings.update p u :: after)%list
                     /\ snd r = jsonWith "Settings updated successfully"
                                  (Prefs (User.preferences (Settings.update p u))) 200
               | _, _ => fst r = db /\ snd r = json "Server error" 500
               end))
  /\ (forall (b : Profile.body) (u : User.t),
        sameCredentials u (Profile.update b u)
        /\ User.preferences (Profile.update b u) = User.preferences u
        /\ merged (option_map User.castName (Profile.name b)) (User.name u)
             (User.name (Profile.update b u))
        /\ merged (Profile.bio b) (User.bio u) (User.bio (Profile.update b u))
        /\ merged (Profile.phoneNumber b) (User.phoneNumber u)
             (User.phoneNumber (Profile.update b u))
        /\ merged (Profile.image b) (User.image u) (User.image (Profile.update b u)))
  /\ (forall (p : Settings.preferences) (u : User.t),
        sameCredentials u (Settings.update p u)
        /\ User.name (Settings.update p u) = User.name u
        /\ User.bio (Settings.update p u) = User.bio u
        /\ User.phoneNumber (Settings.update p u) = User.phoneNumber u
        /\ User.image (Settings.update p u) = User.image u
        /\ merged (Settings.notificationsEnabled p)
             (User.notificationsEnabled (User.preferences u))
             (User.notificationsEnabled (User.preferences (Settings.update p u)))
        /\ merged (Settings.darkMode p) (User.darkMode (User.preferences u))
             (User.darkMode (User.preferences (Settings.update p u)))
        /\ merged (Settings.newsletterSubscribed p)
             (User.newsletterSubscribed (User.preferences u))
             (User.newsletterSubscribed (User.preferences (Settings.update p u)))).
Proof.
  assert (Hsplit : forall (i : nat) (f : User.t -> User.t),
            match Users.findById i db with
            | None => fst (Users.findByIdAndUpdate i f db) = db
                      /\ snd (Users.findByIdAndUpdate i f db) = None
            | Some u =>
                exists before after,
                  users db = (before ++ u :: after)%list
                  /\ Forall (fun x => User._id x <> i) before
                  /\ users (fst (Users.findByIdAndUpdate i f db))
                     = (before ++ f u :: after)%list
                  /\ snd (Users.findByIdAndUpdate i f db) = Some (f u)
            end).
  { intros i f. unfold Users.findById, Users.findByIdAndUpdate. simpl.
    destruct (find (Users.byId i) (users db)) as [u|] eqn:Hf.
    - destruct (updateFirst_split _ f _ _ Hf) as (before & after & Hl & Hb & Hu).
      exists before, after. repeat split; auto.
      eapply Forall_impl; [|exact Hb]. intros x Hx. unfold Users.byId in Hx.
      now apply Nat.eqb_neq.
    - rewrite (updateFirst_none _ _ _ Hf). split; [apply db_eta | reflexivity]. }
  split; [|split; [|split]].
  - intros Hs. unfold Profile.PATCH, Settings.PATCH. rewrite Hs. repeat split.
  - intros session Hs. split; intros b; cbv zeta.
    + unfold Profile.PATCH. rewrite Hs.
      specialize (Hsplit (Jwt.userId session) (Profile.update b)).
      destruct (Users.findByIdAndUpdate _ _ db) as [db1 updated] eqn:Hupd.
      assert (Ho : otps db1 = otps db).
      { unfold Users.findByIdAndUpdate in Hupd. now inversion Hupd. }
      simpl in *. split; [exact Ho|].
      destruct (Users.findById _ db) as [u|].
      * destruct Hsplit as (before & after & Hl & Hb & Hu & ->).
        exists before, after. auto.
      * tauto.
    + unfold Settings.PATCH. rewrite Hs.
      destruct (Settings.prefs b) as [p|]; [|repeat split].
      specialize (Hsplit (Jwt.userId session) (Settings.update p)).
      destruct (Users.findByIdAndUpdate _ _ db) as [db1 updated] eqn:Hupd.
      assert (Ho : otps db1 = otps db).
      { unfold Users.findByIdAndUpdate in Hupd. now inversion Hupd. }
      simpl in *.
      destruct (Users.findById _ db) as [u|].
      * destruct Hsplit as (before & after & Hl & Hb & Hu & ->). simpl.
        split; [exact Ho|]. exists before, after. auto.
      * destruct Hsplit as [-> ->]. simpl. repeat split.
  - apply profile_update_frame.
  - apply settings_update_frame.
Qed.

Lemma patch_is_partial_and_keeps_credentials_witness :
  let session := {| Jwt.userId := 0; Jwt.role := "user" |} in
  let tok := Some (Jwt.sign session fallbackSecret 5000) in
  let b := {| Profile.name := None; Profile.bio := Some "Hello";
              Profile.phoneNumber := None; Profile.image := None |} in
  let ada := {| User._id := 0; User.name := "Ada"; User.email := "a@x.com";
                User.password := "$2a$10$secret1$s0"; User.role := "user";
                User.isVerified := true; User.image := "";
                User.phoneNumber := ""; User.bio := "";
                User.preferences := User.defaultPreferences |} in
  Profile.PATCH None None dbVerified 6000 b = (dbVerified, json "Unauthorized" 401)
  /\ exists before after,
       users dbVerified = (before ++ ada :: after)%list
       /\ Forall (fun x => User._id x <> 0) before
       /\ users (fst (Profile.PATCH None tok dbVerified 6000 b))
          = (before ++ User.set_bio "Hello" ada :: after)%list
       /\ snd (Profile.PATCH None tok dbVerified 6000 b)
          = jsonWith "Profile updated successfully"
              (UpdatedUser (Some (User.set_bio "Hello" ada))) 200.
Proof.
  split.
  - refine (proj1 (proj1 (patch_is_partial_and_keeps_credentials None None
                            dbVerified 6000) _) _).
    reflexivity.
  - exact (proj2 (proj1 (proj1 (proj2 (patch_is_partial_and_keeps_credentials None
                      (Some (Jwt.sign {| Jwt.userId := 0; Jwt.role := "user" |}
                               fallbackSecret 5000))
                      dbVerified 6000))
                      {| Jwt.userId := 0; Jwt.role := "user" |} eq_refl)
                      {| Profile.name := None; Profile.bio := Some "Hello";
                         Profile.phoneNumber := None; Profile.image := None |})).
Defined.

(* ------------------------------------------------------------------ *)
(** ** Further properties of the routes *)

Lemma verify_otp_rejects_expired_witness :
  VerifyOtp.POST dbSignedUp 700000
    {| VerifyOtp.email := "a@x.com"; VerifyOtp.code := "123456" |}
  = (Otps.deleteOne 1 dbSignedUp, json "Verification code has expired" 400).
Proof.
  refine (proj1 (verify_otp_rejects_expired dbSignedUp 700000
                   {| VerifyOtp.email := "a@x.com"; VerifyOtp.code := "123456" |}
                   {| Otp._id := 1; Otp.email := "a@x.com"; Otp.code := "123456";
                      Otp.type := Otp.verification; Otp.expiresAt := 600000 |} _ _));
    vm_compute; reflexivity.
Defined.

Lemma find_byKey_updateFirst (l : list Otp.t) (e c : string) (k : Otp.kind)
  (expires : Z) :
  existsb (Otps.byEmailType e k) l = true ->
  exists o, find (Otps.byKey e c k)
              (updateFirst (Otps.byEmailType e k) (Otp.set_code_expiresAt c expires) l)
            = Some o /\ Otp.expiresAt o = expires.
Proof.
  induction l as [|x l IH]; simpl; [discriminate|].
  destruct (Otps.byEmailType e k x) eqn:Hx; simpl.
  - intros _. exists (Otp.set_code_expiresAt c expires x).
    unfold Otps.byKey, Otps.byEmailType in *. simpl.
    apply andb_true_iff in Hx as [He Hk]. rewrite He, Hk, String.eqb_refl.
    simpl. auto.
  - intros Hex. assert (Hk : Otps.byKey e c k x = false).
    { destruct (Otps.byKey e c k x) eqn:Hb; [|reflexivity].
      apply byKey_byEmailType in Hb. congruence. }
    rewrite Hk. auto.
Qed.

Lemma find_byKey_insert (l : list Otp.t) (e c : string) (k : Otp.kind) (o : Otp.t) :
  existsb (Otps.byEmailType e k) l = false ->
  Otps.byKey e c k o = true ->
  find (Otps.byKey e c k) (l ++ [o]) = Some o.
Proof.
  intros Hex Ho. rewrite find_app_last, Ho.
  destruct (find (Otps.byKey e c k) l) as [x|] eqn:Hf; [|reflexivity].
  apply find_some in Hf as [Hin Hb]. apply byKey_byEmailType in Hb.
  assert (Ht : existsb (Otps.byEmailType e k) l = true)
    by (apply existsb_exists; eauto).
  congruence.
Qed.

(** The forgot-password route always answers 200; without an account it
    changes nothing, and with one it leaves the users alone and makes
    ["123456"], expiring 900000 ms after now, the reset code of the email. *)
Theorem forgot_password_issues_code_iff_account (db : Db) (now : Z)
  (b : ForgotPassword.body) :
  status (snd (ForgotPassword.POST db now b)) = 200%Z
  /\ (Users.findOne (ForgotPassword.email b) db = None ->
      fst (ForgotPassword.POST db now b) = db)
  /\ (forall u, Users.findOne (ForgotPassword.email b) db = Some u ->
      let db' := fst (ForgotPassword.POST db now b) in
      users db' = users db
      /\ exists o, Otps.findOne (ForgotPassword.email b) "123456" Otp.reset db' = Some o
                   /\ Otp.expiresAt o = (now + 15 * 60 * 1000)%Z).
Proof.
  unfold ForgotPassword.POST. split; [|split].
  - now destruct (Users.findOne _ db).
  - now intros ->.
  - intros u Hu. rewrite Hu. cbv zeta. split.
    + unfold Otps.findOneAndUpdate_upsert. now destruct (existsb _ (otps db)).
    + unfold Otps.findOneAndUpdate_upsert, Otps.findOne.
      destruct (existsb _ (otps db)) eqn:Hex; simpl.
      * now apply find_byKey_updateFirst.
      * eexists. split; [apply find_byKey_insert; [assumption|]|reflexivity].
        unfold Otps.byKey. simpl. now rewrite !String.eqb_refl.
Qed.

Lemma forgot_password_issues_code_iff_account_witness :
  fst (ForgotPassword.POST dbVerified 2000 {| ForgotPassword.email := "nouser@x.com" |})
  = dbVerified.
Proof.
  refine (proj1 (proj2 (forgot_password_issues_code_iff_account dbVerified 2000
                          {| ForgotPassword.email := "nouser@x.com" |})) _).
  vm_compute. reflexivity.
Defined.

(** The example of the specification: signup, verification with the issued
    code, then login with the signup password. *)
Example signup_verify_login :
  let r := Login.POST (H := fakeBcrypt) None dbVerified 5000
             {| Login.email := "a@x.com"; Login.password := "secret1" |} in
  status (snd r) = 200%Z
  /\ extra (snd r) = LoginUser 0 "Ada" "a@x.com" "user"
  /\ getSession None (cookie (snd r)) 5000 = Some {| Jwt.userId := 0; Jwt.role := "user" |}
  /\ getSession None (cookie (snd r)) (5000 + 86400000) = None.
Proof. vm_compute. repeat split. Qed.

(* ------------------------------------------------------------------ *)
(** ** Requests that are refused *)

Lemma signup_store `{Bcrypt} (db : Db) (now : Z) (salt : string) (b : Signup.body) :
  (fst (Signup.POST db now salt b) = db /\ ok (snd (Signup.POST db now salt b)) = false)
  \/ (Users.findOne (Signup.email b) db = None /\ validSignup b = true
      /\ Signup.POST db now salt b =
         (afterSignup db now salt b,
          jsonWith "User registered successfully. Please verify your email."
            (UserId (nextId db)) 201)).
Proof.
  destruct (Users.findOne (Signup.email b) db) as [u|] eqn:Hf.
  - left. now rewrite (signup_existing _ _ _ _ _ Hf).
  - destruct (validSignup b) eqn:Hv.
    + right. repeat split. now apply signup_fresh_valid.
    + left. destruct (signup_fresh_invalid db now salt b Hf Hv) as (Hdb & Hst & _).
      split; [assumption|]. unfold ok. now rewrite Hst.
Qed.

Lemma findByIdAndUpdate_none (i : nat) (f : User.t -> User.t) (db : Db) :
  snd (Users.findByIdAndUpdate i f db) = None ->
  users (fst (Users.findByIdAndUpdate i f db)) = users db.
Proof.
  simpl. destruct (find (Users.byId i) (users db)) eqn:Hf; [discriminate|].
  intros _. now apply updateFirst_none.
Qed.

(** A request whose response is not [ok] (the status lies outside 200-299)
    has changed no account and allocated no id, and the only thing it can
    have done to the one-time codes is to delete the expired verification
    code it was given. *)
Theorem refused_request_changes_no_account `{Bcrypt} (env : option string)
  (db : Db) (now : Z) (r : Request) :
  ok (snd (handle env db now r)) = false ->
  let db' := fst (handle env db now r) in
  users db' = users db
  /\ nextId db' = nextId db
  /\ incl (otps db') (otps db)
  /\ (otps db' = otps db
      \/ exists b, r = VerifyOtpReq b
                   /\ snd (handle env db now r) = json "Verification code has expired" 400).
Proof.
  cbv zeta.
  destruct r as [salt b|b|b|b|salt b|tok salt b|tok b|tok b]; simpl.
  - destruct (signup_store db now salt b) as [[-> _] | (_ & _ & ->)].
    + intros _. repeat split; [apply incl_refl | now left].
    + discriminate.
  - unfold VerifyOtp.POST. destruct (Otps.findOne _ _ _ db) as [o|].
    + destruct (now >? Otp.expiresAt o)%Z; [|discriminate].
      intros _. simpl. repeat split.
      * intros x Hx. eapply In_removeFirst; eauto.
      * right. now exists b.
    + intros _. repeat split; [apply incl_refl | now left].
  - rewrite login_keeps_store. intros _.
    repeat split; [apply incl_refl | now left].
  - unfold ForgotPassword.POST. destruct (Users.findOne _ db); discriminate.
  - unfold ResetPassword.POST. destruct (Otps.findOne _ _ _ db) as [o|];
      [discriminate|].
    intros _. repeat split; [apply incl_refl | now left].
  - unfold UpdatePassword.PATCH.
    destruct (getSession _ _ _);
      [|intros _; repeat split; [apply incl_refl | now left]].
    destruct (Users.findById _ db) as [u|];
      [|intros _; repeat split; [apply incl_refl | now left]].
    destruct (negb (bcrypt_compare _ _));
      [intros _; repeat split; [apply incl_refl | now left]|].
    destruct (Users.savePassword _ _ db); [|discriminate].
    intros _. repeat split; [apply incl_refl | now left].
  - unfold Profile.PATCH.
    destruct (getSession _ _ _); [discriminate|].
    intros _. repeat split; [apply incl_refl | now left].
  - unfold Settings.PATCH.
    destruct (getSession _ _ _) as [session|];
      [|intros _; repeat split; [apply incl_refl | now left]].
    destruct (Settings.prefs b) as [p|];
      [|intros _; repeat split; [apply incl_refl | now left]].
    pose proof (findByIdAndUpdate_none (Jwt.userId session) (Settings.update p) db)
      as Hnone.
    destruct (Users.findByIdAndUpdate _ _ db) as [db1 [u|]] eqn:Hupd; [discriminate|].
    intros _. simpl in *. specialize (Hnone eq_refl).
    inversion Hupd; subst. simpl.
    repeat split; [assumption | apply incl_refl | now left].
Qed.

Lemma refused_request_changes_no_account_witness :
  users (fst (handle (H := fakeBcrypt) None dbSignedUp 700000
                (VerifyOtpReq {| VerifyOtp.email := "a@x.com";
                                 VerifyOtp.code := "123456" |})))
  = users dbSignedUp.
Proof.
  refine (proj1 (refused_request_changes_no_account (H := fakeBcrypt) None
                   dbSignedUp 700000
                   (VerifyOtpReq {| VerifyOtp.email := "a@x.com";
                                    VerifyOtp.code := "123456" |}) _)).
  vm_compute. reflexivity.
Defined.

(** The signup route never looks at the password itself: two requests that
    differ only in the password (and in the salt drawn) get the same
    response. The schema's [minlength: 6] is checked on the digest, so no
    password, not even the empty one, is refused. *)
Theorem signup_response_ignores_password `{Bcrypt} (db : Db) (now : Z)
  (salt salt' : string) (n e p p' : string) (r : option string) :
  snd (Signup.POST db now salt
         {| Signup.name := n; Signup.email := e; Signup.password := p;
            Signup.role := r |})
  = snd (Signup.POST db now salt'
           {| Signup.name := n; Signup.email := e; Signup.password := p';
              Signup.role := r |}).
Proof.
  unfold Signup.POST, Users.create. simpl.
  destruct (Users.findOne e db); [reflexivity|].
  rewrite !validPassword_hash. simpl.
  destruct (negb (User.validName _)); [reflexivity|].
  destruct (negb (User.validEmail _)); [reflexivity|].
  destruct (negb (User.validRole _)); [reflexivity|].
  destruct (existsb _ (users db)); [reflexivity|].
  unfold Otps.create. simpl.
  destruct (negb (User.nonEmpty e)); reflexivity.
Qed.

(* ------------------------------------------------------------------ *)
(** ** The accounts along a history *)

Lemma sameIdentity_refl (u : User.t) : sameIdentity u u.
Proof. unfold sameIdentity. auto. Qed.

Lemma Forall2_refl_on {A : Type} (R : A -> A -> Prop) (l : list A) :
  (forall x, R x x) -> Forall2 R l l.
Proof. intros HR. induction l; constructor; auto. Qed.

Lemma Forall2_updateFirst_rel {A : Type} (R : A -> A -> Prop) (q : A -> bool)
  (f : A -> A) (l : list A) :
  (forall x, R x x) -> (forall x, R x (f x)) ->
  Forall2 R l (updateFirst q f l).
Proof.
  intros Hr Hf. eapply Forall2_impl; [|apply Forall2_updateFirst].
  intros x y [-> | [_ ->]]; auto.
Qed.

Lemma sameIdentity_updateFirst (q : User.t -> bool) (f : User.t -> User.t)
  (l : list User.t) :
  (forall u, sameIdentity u (f u)) ->
  Forall2 sameIdentity l (updateFirst q f l).
Proof.
  intros Hf. apply Forall2_updateFirst_rel; [apply sameIdentity_refl | assumption].
Qed.

Lemma profile_update_identity (b : Profile.body) (u : User.t) :
  sameIdentity u (Profile.update b u).
Proof.
  destruct (profile_update_frame b u) as ((Hi & _ & He & Hr & _) & _).
  unfold sameIdentity. auto.
Qed.

Lemma settings_update_identity (p : Settings.preferences) (u : User.t) :
  sameIdentity u (Settings.update p u).
Proof.
  destruct (settings_update_frame p u) as ((Hi & _ & He & Hr & _) & _).
  unfold sameIdentity. auto.
Qed.

(** What one request does to the accounts: it keeps them in place with
    their identity, or it is a signup for a free email and appends the new
    account. The id counter never goes back. *)
Lemma users_handle `{Bcrypt} (env : option string) (db : Db) (now : Z) (r : Request) :
  nextId db <= nextId (fst (handle env db now r))
  /\ (Forall2 sameIdentity (users db) (users (fst (handle env db now r)))
      \/ exists salt b,
           r = SignupReq salt b
           /\ Users.findOne (Signup.email b) db = None
           /\ users (fst (handle env db now r)) = (users db ++ [signedUpUser db salt b])%list
           /\ nextId db < nextId (fst (handle env db now r))).
Proof.
  assert (Hsame : forall db', users db' = users db -> nextId db <= nextId db' ->
            nextId db <= nextId db'
            /\ (Forall2 sameIdentity (users db) (users db')
                \/ exists salt b,
                     r = SignupReq salt b
                     /\ Users.findOne (Signup.email b) db = None
                     /\ users db' = (users db ++ [signedUpUser db salt b])%list
                     /\ nextId db < nextId db')).
  { intros db' Hu Hn. split; [assumption|]. left. rewrite Hu.
    apply Forall2_refl_on, sameIdentity_refl. }
  assert (Hupd : forall q f os,
            (forall u, sameIdentity u (f u)) ->
            nextId db <= nextId db
            /\ (Forall2 sameIdentity (users db)
                  (users {| users := updateFirst q f (users db); otps := os;
                            nextId := nextId db |})
                \/ exists salt b,
                     r = SignupReq salt b
                     /\ Users.findOne (Signup.email b) db = None
                     /\ users {| users := updateFirst q f (users db); otps := os;
                                 nextId := nextId db |}
                        = (users db ++ [signedUpUser db salt b])%list
                     /\ nextId db < nextId db)).
  { intros q f os Hf. split; [lia|]. left. simpl.
    now apply sameIdentity_updateFirst. }
  destruct r as [salt b|b|b|b|salt b|tok salt b|tok b|tok b]; simpl.
  - destruct (signup_store db now salt b) as [[-> _] | (Hf & _ & ->)].
    + apply Hsame; auto.
    + simpl. split; [lia|]. right. exists salt, b. repeat split; auto.
  - unfold VerifyOtp.POST. destruct (Otps.findOne _ _ _ db) as [o|];
      [|apply Hsame; auto].
    destruct (now >? Otp.expiresAt o)%Z; simpl; [apply Hsame; auto|].
    apply (Hupd _ _ (removeFirst (Otps.byId (Otp._id o)) (otps db))).
    intros u. unfold sameIdentity. auto.
  - rewrite login_keeps_store. apply Hsame; auto.
  - unfold ForgotPassword.POST. destruct (Users.findOne _ db); [|apply Hsame; auto].
    unfold Otps.findOneAndUpdate_upsert.
    destruct (existsb _ (otps db)); apply Hsame; simpl; auto.
  - unfold ResetPassword.POST. destruct (Otps.findOne _ _ _ db) as [o|];
      [|apply Hsame; auto].
    simpl. apply (Hupd _ _ (removeFirst (Otps.byId (Otp._id o)) (otps db))).
    intros u. unfold sameIdentity. auto.
  - unfold UpdatePassword.PATCH. destruct (getSession _ _ _); [|apply Hsame; auto].
    destruct (Users.findById _ db) as [u|]; [|apply Hsame; auto].
    destruct (negb (bcrypt_compare _ _)); [apply Hsame; auto|].
    unfold Users.savePassword.
    destruct (Users.validate _); [apply Hsame; auto|].
    simpl. apply (Hupd _ _ (otps db)). intros x. unfold sameIdentity. auto.
  - unfold Profile.PATCH. destruct (getSession _ _ _); [|apply Hsame; auto].
    simpl. apply (Hupd _ _ (otps db)). apply profile_update_identity.
  - unfold Settings.PATCH. destruct (getSession _ _ _) as [session|];
      [|apply Hsame; auto].
    destruct (Settings.prefs b) as [p|]; [|apply Hsame; auto].
    pose proof (Hupd (Users.byId (Jwt.userId session)) (Settings.update p) (otps db)
                  (settings_update_identity p)) as Hp.
    unfold Users.findByIdAndUpdate.
    destruct (option_map _ _); exact Hp.
Qed.

Lemma sameIdentity_maps (l l' : list User.t) :
  Forall2 sameIdentity l l' ->
  map User.email l' = map User.email l /\ map User._id l' = map User._id l.
Proof.
  induction 1 as [|u u' l l' (Hi & He & _) _ [IHe IHi]]; simpl; [auto|].
  now rewrite Hi, He, IHe, IHi.
Qed.

(** The invariant of the accounts. *)
Record UsersInv (db : Db) : Prop := {
  uinv_emails : NoDup (map User.email (users db));
  uinv_ids : NoDup (map User._id (users db));
  uinv_fresh : Forall (fun u => User._id u < nextId db) (users db)
}.

Lemma Forall_map_lt (l : list User.t) (n : nat) :
  Forall (fun u => User._id u < n) l <-> Forall (fun i => i < n) (map User._id l).
Proof. now rewrite Forall_map. Qed.

Lemma UsersInv_step `{Bcrypt} (env : option string) (db : Db) (ev : Event) :
  UsersInv db -> UsersInv (step env db ev).
Proof.
  intros [He Hi Hf]. destruct ev as [now r|now]; [|constructor; assumption].
  simpl. destruct (users_handle env db now r) as [Hn [Hs | (salt & b & _ & Hnone & Hu & Hlt)]].
  - apply sameIdentity_maps in Hs as [Eem Eid]. constructor.
    + now rewrite Eem.
    + now rewrite Eid.
    + apply Forall_map_lt. rewrite Eid. apply Forall_map_lt.
      eapply Forall_impl; [|exact Hf]. simpl. intros; lia.
  - constructor; rewrite Hu.
    + rewrite map_app. simpl. apply NoDup_snoc; [assumption|].
      now apply findOne_none_email.
    + rewrite map_app. simpl. apply NoDup_snoc; [assumption|].
      intros Hin. apply in_map_iff in Hin as (x & Hx & Hin).
      rewrite Forall_forall in Hf. specialize (Hf x Hin). lia.
    + apply Forall_app. split.
      * eapply Forall_impl; [|exact Hf]. simpl. intros; lia.
      * constructor; [simpl; lia | constructor].
Qed.

Lemma UsersInv_run `{Bcrypt} (env : option string) (evs : list Event) (db : Db) :
  UsersInv db -> UsersInv (run env db evs).
Proof.
  revert db. induction evs as [|ev evs IH]; simpl; intros db HI; [assumption|].
  apply IH. now apply UsersInv_step.
Qed.

(** In every reachable state no two accounts share an email or an id, and
    consequently a lookup by email and a lookup by that account's id find
    the same account. *)
Theorem reachable_accounts_are_unique `{Bcrypt} (env : option string) (db : Db) :
  reachable env db ->
  NoDup (map User.email (users db))
  /\ NoDup (map User._id (users db))
  /\ (forall e u, Users.findOne e db = Some u ->
                  Users.findById (User._id u) db = Some u).
Proof.
  intros [evs ->].
  assert (HI : UsersInv (run env emptyDb evs)).
  { apply UsersInv_run. constructor; simpl; constructor. }
  destruct HI as [He Hi _]. repeat split; [assumption | assumption|].
  intros e u Hf. unfold Users.findOne, Users.findById in *.
  set (l := users (run env emptyDb evs)) in *. clearbody l.
  induction l as [|x l IH]; simpl in *; [discriminate|].
  inversion Hi as [|? ? Hx Hi']; subst. inversion He as [|? ? _ He']; subst.
  destruct (Users.byEmail e x) eqn:Hb.
  - inversion Hf; subst. unfold Users.byId. now rewrite Nat.eqb_refl.
  - assert (Hne : Users.byId (User._id u) x = false).
    { unfold Users.byId. apply Nat.eqb_neq. intros E. apply Hx.
      rewrite E. apply in_map. now apply find_some in Hf. }
    rewrite Hne. auto.
Qed.

Lemma reachable_accounts_are_unique_witness :
  NoDup (map User.email (users dbResetPending)).
Proof.
  exact (proj1 (reachable_accounts_are_unique (H := fakeBcrypt) None dbResetPending
                  (ex_intro _ historyA eq_refl))).
Defined.

(** Accounts are append-only and their identity is fixed: after any history,
    the accounts that existed before are still there, in the same order,
    each with the id, email and role it had; whatever else is stored was
    added behind them. *)
Theorem accounts_keep_identity `{Bcrypt} (env : option string) (evs : list Event)
  (db : Db) :
  exists kept added,
    users (run env db evs) = (kept ++ added)%list
    /\ Forall2 sameIdentity (users db) kept.
Proof.
  revert db. induction evs as [|ev evs IH]; simpl; intros db.
  - exists (users db), []. rewrite app_nil_r. split; [reflexivity|].
    apply Forall2_refl_on, sameIdentity_refl.
  - destruct (IH (step env db ev)) as (kept & added & Hrun & Hkept).
    assert (Hstep : exists k a, users (step env db ev) = (k ++ a)%list
                                /\ Forall2 sameIdentity (users db) k).
    { destruct ev as [now r|now]; simpl.
      - destruct (users_handle env db now r) as [_ [Hs | (salt & b & _ & _ & Hu & _)]].
        + exists (users (fst (handle env db now r))), []. now rewrite app_nil_r.
        + exists (users db), [signedUpUser db salt b]. split; [assumption|].
          apply Forall2_refl_on, sameIdentity_refl.
      - exists (users db), []. rewrite app_nil_r. split; [reflexivity|].
        apply Forall2_refl_on, sameIdentity_refl. }
    destruct Hstep as (k & a & Hk & Hka). rewrite Hk in Hkept.
    apply Forall2_app_inv_l in Hkept as (k' & a' & Hk' & _ & ->).
    exists k', (a' ++ added)%list. rewrite Hrun, app_assoc. split; [reflexivity|].
    clear - Hka Hk'. revert k' Hk'.
    induction Hka as [|u v l k (Hi & He & Hr) _ IHk]; intros k' Hk'.
    + inversion Hk'. constructor.
    + inversion Hk' as [|? w ? k'' (Hi' & He' & Hr') Hk'']; subst.
      constructor; [|auto]. unfold sameIdentity. repeat split; congruence.
Qed.

(* ------------------------------------------------------------------ *)
(** ** From signup to login *)

Lemma no_verification_code_before_signup (db : Db) (e : string) :
  Inv db -> Users.findOne e db = None ->
  ~ In (e, Otp.verification) (map otpKey (otps db)).
Proof.
  intros HI Hf Hin. apply in_map_iff in Hin as (x & Hx & Hin).
  unfold otpKey in Hx. inversion Hx as [[He Ht]].
  apply (findOne_none_email _ _ Hf). rewrite <- He.
  now apply (inv_verification _ HI).
Qed.

(** In a reachable state, a signup answered 201, followed by a verify-otp
    request with the signup email and the issued code no later than ten
    minutes after the signup, followed by a login with the signup email and
    password: the verification is answered 200 and so is the login, which
    returns the new account's id, trimmed name, normalised email and role
    and sets a session cookie that [getSession] accepts. *)
Theorem signup_verify_login_succeeds `{Bcrypt} (env : option string) (db : Db)
  (now now1 now2 : Z) (salt : string) (b : Signup.body) :
  reachable env db ->
  status (snd (Signup.POST db now salt b)) = 201%Z ->
  (now1 <= now + 600000)%Z ->
  let db1 := fst (Signup.POST db now salt b) in
  let v := VerifyOtp.POST db1 now1
             {| VerifyOtp.email := Signup.email b; VerifyOtp.code := "123456" |} in
  let l := Login.POST env (fst v) now2
             {| Login.email := Signup.email b; Login.password := Signup.password b |} in
  snd v = json "Account verified successfully. You can now login." 200
  /\ status (snd l) = 200%Z
  /\ extra (snd l) =
     LoginUser (nextId db) (User.castName (Signup.name b))
       (User.castEmail (Signup.email b)) (Js.or (Signup.role b) "user")
  /\ getSession env (cookie (snd l)) now2 =
     Some {| Jwt.userId := nextId db; Jwt.role := Js.or (Signup.role b) "user" |}.
Proof.
  intros Hr Hs Hnow. apply reachable_Inv in Hr.
  destruct (signup_201 _ _ _ _ Hs) as [Hf Hv].
  rewrite (signup_fresh_valid _ _ _ _ Hf Hv). cbv zeta. simpl fst.
  assert (Hcode : Otps.findOne (Signup.email b) "123456" Otp.verification
                    (afterSignup db now salt b) = Some (verificationCode db now b)).
  { unfold Otps.findOne. simpl. rewrite find_app_last.
    rewrite (find_byKey_none _ _ _ _ (no_verification_code_before_signup _ _ Hr Hf)).
    unfold Otps.byKey. simpl. now rewrite String.eqb_refl. }
  unfold VerifyOtp.POST. simpl VerifyOtp.email. simpl VerifyOtp.code.
  rewrite Hcode. simpl Otp.expiresAt.
  assert (Hle : (now1 >? now + 600000)%Z = false).
  { destruct (Z.gtb_spec now1 (now + 600000)); [lia | reflexivity]. }
  rewrite Hle. simpl snd. split; [reflexivity|]. simpl fst.
  assert (Hu : Users.findOne (Signup.email b)
                 (Otps.deleteOne (Otp._id (verificationCode db now b))
                    (Users.findOneAndUpdate (Signup.email b)
                       (User.set_isVerified true) (afterSignup db now salt b)))
               = Some (User.set_isVerified true (signedUpUser db salt b))).
  { pose proof (unverified_afterSignup db now salt b Hf) as Hnew.
    unfold Users.findOne in *. simpl in *.
    now apply find_updateFirst_self. }
  simpl Otp._id in Hu.
  unfold Login.POST. simpl Login.email. simpl Login.password. rewrite Hu. simpl.
  rewrite bcrypt_compare_hash. simpl. repeat split. apply jwt_verify_sign.
Qed.

Lemma signup_verify_login_succeeds_witness :
  let v := VerifyOtp.POST dbSignedUp 1000
             {| VerifyOtp.email := "a@x.com"; VerifyOtp.code := "123456" |} in
  snd v = json "Account verified successfully. You can now login." 200.
Proof.
  refine (proj1 (signup_verify_login_succeeds (H := fakeBcrypt) None emptyDb
                   0 1000 5000 "s0" signupA (ex_intro _ [] eq_refl) _ _));
    vm_compute; [reflexivity | discriminate].
Defined.

(* ------------------------------------------------------------------ *)
(** ** An account whose verification code is gone *)

(** Where the verification codes of a state come from: an earlier code of
    the same email, or a signup for an email that had no account. *)
Lemma verification_codes_step `{Bcrypt} (env : option string) (db : Db) (ev : Event)
  (o : Otp.t) :
  In o (otps (step env db ev)) -> Otp.type o = Otp.verification ->
  (exists o0, In o0 (otps db) /\ Otp.email o0 = Otp.email o
              /\ Otp.type o0 = Otp.verification)
  \/ Users.findOne (Otp.email o) db = None.
Proof.
  assert (Hold : In o (otps db) -> Otp.type o = Otp.verification ->
                 (exists o0, In o0 (otps db) /\ Otp.email o0 = Otp.email o
                             /\ Otp.type o0 = Otp.verification)
                 \/ Users.findOne (Otp.email o) db = None).
  { intros Hin Ht. left. exists o. auto. }
  destruct ev as [now r|now]; simpl.
  - destruct r as [salt b|b|b|b|salt b|tok salt b|tok b|tok b]; simpl.
    + destruct (signup_store db now salt b) as [[-> _] | (Hf & _ & ->)]; [exact Hold|].
      simpl. intros Hin Ht. apply in_app_iff in Hin as [Hin | [<- | []]]; [auto|].
      right. exact Hf.
    + unfold VerifyOtp.POST. destruct (Otps.findOne _ _ _ db) as [x|]; [|exact Hold].
      destruct (now >? Otp.expiresAt x)%Z; simpl; intros Hin;
        apply In_removeFirst in Hin; auto.
    + now rewrite login_keeps_store.
    + unfold ForgotPassword.POST.
      destruct (Users.findOne (ForgotPassword.email b) db); [|exact Hold].
      unfold Otps.findOneAndUpdate_upsert.
      destruct (existsb _ (otps db)); simpl; intros Hin Ht.
      * apply In_updateFirst in Hin as [Hin | (x & Hx & ->)]; [auto|].
        left. exists x. simpl in *. auto.
      * apply in_app_iff in Hin as [Hin | [<- | []]]; [auto | discriminate].
    + unfold ResetPassword.POST. destruct (Otps.findOne _ _ _ db) as [x|]; [|exact Hold].
      simpl. intros Hin. apply In_removeFirst in Hin. auto.
    + unfold UpdatePassword.PATCH. destruct (getSession _ _ _); [|exact Hold].
      destruct (Users.findById _ db) as [u|]; [|exact Hold].
      destruct (negb (bcrypt_compare _ _)); [exact Hold|].
      unfold Users.savePassword. destruct (Users.validate _); exact Hold.
    + unfold Profile.PATCH. destruct (getSession _ _ _); exact Hold.
    + unfold Settings.PATCH. destruct (getSession _ _ _) as [session|]; [|exact Hold].
      destruct (Settings.prefs b) as [p|]; [|exact Hold].
      unfold Users.findByIdAndUpdate. destruct (option_map _ _); exact Hold.
  - intros Hin. apply filter_In in Hin as [Hin _]. auto.
Qed.

Lemma unverified_registered (e : string) (db : Db) :
  unverified e db -> In (User.castEmail e) (map User.email (users db)).
Proof.
  intros (u & Hu & _). unfold Users.findOne in Hu. apply find_some in Hu as [Hin Hb].
  unfold Users.byEmail in Hb. apply String.eqb_eq in Hb. rewrite <- Hb.
  now apply in_map.
Qed.

Lemma noVerificationCode_step `{Bcrypt} (env : option string) (e : string)
  (db : Db) (ev : Event) :
  In (User.castEmail e) (map User.email (users db)) ->
  noVerificationCode e db -> noVerificationCode e (step env db ev).
Proof.
  intros Hreg Hno o Hin Ht.
  destruct (verification_codes_step env db ev o Hin Ht) as [(o0 & Hin0 & He & Ht0) | Hf].
  - rewrite <- He. now apply Hno.
  - intros E. apply (findOne_none_email _ _ Hf). now rewrite E.
Qed.

Lemma noVerificationCode_verifies (e : string) (db : Db) (ev : Event) :
  noVerificationCode e db -> verifies e db ev = false.
Proof.
  intros Hno. destruct ev as [now [| b | | | | | |]|]; try reflexivity.
  simpl. destruct (String.eqb _ _) eqn:He; [|reflexivity]. simpl.
  apply String.eqb_eq in He.
  destruct (status (snd (VerifyOtp.POST db now b)) =? 200)%Z eqn:Hs; [|reflexivity].
  apply Z.eqb_eq, verify_otp_status_200 in Hs as (o & Hf & _).
  unfold Otps.findOne in Hf. apply find_some in Hf as [Hin Hb].
  unfold Otps.byKey in Hb. apply andb_true_iff in Hb as [Hb Hk].
  apply andb_true_iff in Hb as [Hem _]. apply String.eqb_eq in Hem.
  exfalso. apply (Hno o Hin).
  - now destruct (Otp.type o).
  - now rewrite Hem.
Qed.

(** An unverified account for which no verification code is stored (the code
    has expired and was swept, or was deleted by a late attempt) can never
    be verified: whatever requests and sweeps follow, no verification code
    for it appears again, the account stays unverified, and every login with
    its email is answered 403. *)
Theorem account_without_code_stays_unverified `{Bcrypt} (env : option string)
  (e : string) (evs : list Event) (db : Db) :
  unverified e db ->
  noVerificationCode e db ->
  unverified e (run env db evs)
  /\ noVerificationCode e (run env db evs)
  /\ forall (now : Z) (p : string),
       Login.POST env (run env db evs) now {| Login.email := e; Login.password := p |}
       = (run env db evs,
          jsonWith "Please verify your email before logging in" Unverified 403).
Proof.
  revert db. induction evs as [|ev evs IH]; simpl; intros db Hu Hno.
  - split; [assumption|]. split; [assumption|]. intros now p.
    destruct Hu as (u & Hf & Hv). now apply (login_unverified env db now _ u).
  - apply IH.
    + apply unverified_step; [assumption | now apply noVerificationCode_verifies].
    + apply noVerificationCode_step; [now apply unverified_registered | assumption].
Qed.

Lemma account_without_code_stays_unverified_witness :
  let db := Otps.ttlSweep 700000 dbSignedUp in
  let later := run (H := fakeBcrypt) None db
                 [ Serve 800000 (SignupReq "s1" signupA);
                   Serve 800001 (VerifyOtpReq {| VerifyOtp.email := "a@x.com";
                                                 VerifyOtp.code := "123456" |}) ] in
  Login.POST (H := fakeBcrypt) None later 800002
    {| Login.email := "a@x.com"; Login.password := "secret1" |}
  = (later, jsonWith "Please verify your email before logging in" Unverified 403).
Proof.
  refine (proj2 (proj2 (account_without_code_stays_unverified (H := fakeBcrypt) None
                          "a@x.com"
                          [ Serve 800000 (SignupReq "s1" signupA);
                            Serve 800001 (VerifyOtpReq
                                            {| VerifyOtp.email := "a@x.com";
                                               VerifyOtp.code := "123456" |}) ]
                          (Otps.ttlSweep 700000 dbSignedUp) _ _)) 800002%Z "secret1").
  - eexists. split; vm_compute; reflexivity.
  - intros o Hin. vm_compute in Hin. destruct Hin.
Defined.

(* ------------------------------------------------------------------ *)
(** ** Changing the password *)

Lemma find_updateFirst_cross {A : Type} (p q : A -> bool) (f : A -> A) (l : list A)
  (x : A) :
  (forall a, p (f a) = p a) ->
  find p l = Some x -> find q l = Some x ->
  find p (updateFirst q f l) = Some (f x).
Proof.
  intros Hp. induction l as [|a l IH]; simpl; [discriminate|].
  destruct (q a) eqn:Hq; simpl.
  - intros Hfp Hfq. inversion Hfq; subst. rewrite Hp.
    destruct (p x) eqn:Hpx; [reflexivity|].
    apply find_some in Hfp as [_ Hpx']. congruence.
  - destruct (p a) eqn:Hpa.
    + intros Hfp Hfq. inversion Hfp; subst.
      apply find_some in Hfq as [_ Hqx]. congruence.
    + auto.
Qed.

Lemma accountValid_sameIdentity (l l' : list User.t) :
  Forall2 sameIdentity l l' -> Forall accountValid l -> Forall accountValid l'.
Proof.
  induction 1 as [|u u' l l' (_ & He & Hr) _ IH]; intros Hv; [constructor|].
  inversion Hv as [|? ? [Hve Hvr] Hv']; subst. constructor; [|auto].
  unfold accountValid. now rewrite He, Hr.
Qed.

Lemma accountValid_step `{Bcrypt} (env : option string) (db : Db) (ev : Event) :
  Forall accountValid (users db) -> Forall accountValid (users (step env db ev)).
Proof.
  intros Hv. destruct ev as [now r|now]; [|exact Hv].
  assert (Hother : (forall salt b, r <> SignupReq salt b) ->
                   Forall accountValid (users (step env db (Serve now r)))).
  { intros Hne. simpl.
    destruct (users_handle env db now r) as [_ [Hs | (salt & b & Hr & _)]].
    - now apply (accountValid_sameIdentity (users db)).
    - now contradiction (Hne salt b). }
  destruct r as [salt b|b|b|b|salt b|tok salt b|tok b|tok b];
    try (apply Hother; intros; discriminate).
  simpl. destruct (signup_store db now salt b) as [[-> _] | (_ & Hvalid & ->)];
    [exact Hv|].
  simpl. apply Forall_app. split; [exact Hv|]. constructor; [|constructor].
  unfold validSignup in Hvalid. apply andb_true_iff in Hvalid as [Hvalid Hrole].
  apply andb_true_iff in Hvalid as [_ Hemail]. now split.
Qed.

Lemma reachable_accountValid `{Bcrypt} (env : option string) (db : Db) :
  reachable env db -> Forall accountValid (users db).
Proof.
  intros [evs ->].
  assert (Hgen : forall db0, Forall accountValid (users db0) ->
                             Forall accountValid (users (run env db0 evs))).
  { induction evs as [|ev evs IH]; simpl; intros db0 Hv; [assumption|].
    apply IH. now apply accountValid_step. }
  apply Hgen. constructor.
Qed.

(** The password route of the settings module, in a reachable state, for a
    valid session whose account is the verified account of email [e]. A
    wrong current password is answered 400 ["Incorrect current password"]
    and nothing changes. With the right one, [save()] validates the whole
    document: if the stored name is not empty the answer is 200, the stored
    hash becomes the digest of the new password, the one-time codes are
    left alone and login with the new password is answered 200 from then
    on; if the stored name is empty (a profile PATCH can make it so) the
    answer is 500 ["Server error"] and nothing changes. *)
Theorem update_password_checks_current `{Bcrypt} (env : option string)
  (tok : option Jwt.token) (db : Db) (now : Z) (salt : string)
  (b : UpdatePassword.body) (session : Jwt.payload) (u : User.t) (e : string) :
  reachable env db ->
  getSession env tok now = Some session ->
  Users.findById (Jwt.userId session) db = Some u ->
  Users.findOne e db = Some u ->
  User.isVerified u = true ->
  let r := UpdatePassword.PATCH env tok db now salt b in
  let digest := bcrypt_hash (UpdatePassword.newPassword b) salt in
  (bcrypt_compare (UpdatePassword.currentPassword b) (User.password u) = false ->
   r = (db, json "Incorrect current password" 400))
  /\ (bcrypt_compare (UpdatePassword.currentPassword b) (User.password u) = true ->
      User.validName (User.name u) = true ->
      snd r = json "Password updated successfully" 200
      /\ otps (fst r) = otps db
      /\ Users.findOne e (fst r) = Some (User.set_password digest u)
      /\ forall now' : Z,
           status (snd (Login.POST env (fst r) now'
                          {| Login.email := e;
                             Login.password := UpdatePassword.newPassword b |}))
           = 200%Z)
  /\ (bcrypt_compare (UpdatePassword.currentPassword b) (User.password u) = true ->
      User.validName (User.name u) = false ->
      r = (db, json "Server error" 500)).
Proof.
  intros Hreach Hs Hid He Hv. cbv zeta.
  assert (Hvalid : accountValid u).
  { apply reachable_accountValid in Hreach. rewrite Forall_forall in Hreach.
    apply Hreach. unfold Users.findById in Hid. now apply find_some in Hid. }
  destruct Hvalid as [Hemail Hrole].
  unfold UpdatePassword.PATCH. rewrite Hs, Hid.
  split; [intros Hc; now rewrite Hc|].
  split; intros Hc Hname; rewrite Hc; simpl;
    unfold Users.savePassword, Users.validate; simpl;
    rewrite Hname, ?Hemail, ?Hrole, ?validPassword_hash; simpl; [|reflexivity].
  split; [reflexivity|]. split; [reflexivity|].
  assert (Hfind : Users.findOne e
                    {| users := updateFirst (Users.byId (User._id u))
                                  (User.set_password
                                     (bcrypt_hash (UpdatePassword.newPassword b) salt))
                                  (users db);
                       otps := otps db; nextId := nextId db |}
                  = Some (User.set_password
                            (bcrypt_hash (UpdatePassword.newPassword b) salt) u)).
  { unfold Users.findOne, Users.findById in *. simpl.
    apply find_updateFirst_cross; auto.
    pose proof (find_some _ _ Hid) as [_ Hb]. unfold Users.byId in Hb.
    apply Nat.eqb_eq in Hb. now rewrite Hb. }
  split; [exact Hfind|]. intros now'. unfold Login.POST. simpl Login.email.
  simpl Login.password. rewrite Hfind. simpl. rewrite Hv. simpl.
  now rewrite bcrypt_compare_hash.
Qed.

(** The store of the worked history after the account emptied its name
    through the profile route. *)
Definition dbNameless : Db :=
  fst (Profile.PATCH None
         (Some (Jwt.sign {| Jwt.userId := 0; Jwt.role := "user" |} fallbackSecret 5000))
         dbVerified 5500
         {| Profile.name := Some ""; Profile.bio := None;
            Profile.phoneNumber := None; Profile.image := None |}).

Lemma update_password_checks_current_witness :
  let tok := Some (Jwt.sign {| Jwt.userId := 0; Jwt.role := "user" |}
                     fallbackSecret 5000) in
  UpdatePassword.PATCH (H := fakeBcrypt) None tok dbVerified 6000 "s4"
    {| UpdatePassword.currentPassword := "guess";
       UpdatePassword.newPassword := "hunter22" |}
  = (dbVerified, json "Incorrect current password" 400)
  /\ snd (UpdatePassword.PATCH (H := fakeBcrypt) None tok dbVerified 6000 "s4"
            {| UpdatePassword.currentPassword := "secret1";
               UpdatePassword.newPassword := "hunter22" |})
     = json "Password updated successfully" 200
  /\ UpdatePassword.PATCH (H := fakeBcrypt) None tok dbNameless 6000 "s4"
       {| UpdatePassword.currentPassword := "secret1";
          UpdatePassword.newPassword := "hunter22" |}
     = (dbNameless, json "Server error" 500).
Proof.
  pose (ada := {| User._id := 0; User.name := "Ada"; User.email := "a@x.com";
                  User.password := "$2a$10$secret1$s0"; User.role := "user";
                  User.isVerified := true; User.image := "";
                  User.phoneNumber := ""; User.bio := "";
                  User.preferences := User.defaultPreferences |}).
  pose (tok := Some (Jwt.sign {| Jwt.userId := 0; Jwt.role := "user" |}
                       fallbackSecret 5000)).
  split; [|split].
  - refine (proj1 (update_password_checks_current (H := fakeBcrypt) None tok
                     dbVerified 6000 "s4"
                     {| UpdatePassword.currentPassword := "guess";
                        UpdatePassword.newPassword := "hunter22" |}
                     {| Jwt.userId := 0; Jwt.role := "user" |} ada "a@x.com"
                     (ex_intro _ (firstn 2 historyA) eq_refl) _ _ _ _) _);
      vm_compute; reflexivity.
  - refine (proj1 (proj1 (proj2 (update_password_checks_current (H := fakeBcrypt)
                     None tok dbVerified 6000 "s4"
                     {| UpdatePassword.currentPassword := "secret1";
                        UpdatePassword.newPassword := "hunter22" |}
                     {| Jwt.userId := 0; Jwt.role := "user" |} ada "a@x.com"
                     (ex_intro _ (firstn 2 historyA) eq_refl) _ _ _ _)) _ _));
      vm_compute; reflexivity.
  - refine (proj2 (proj2 (update_password_checks_current (H := fakeBcrypt)
                     None tok dbNameless 6000 "s4"
                     {| UpdatePassword.currentPassword := "secret1";
                        UpdatePassword.newPassword := "hunter22" |}
                     {| Jwt.userId := 0; Jwt.role := "user" |}
                     (User.set_name "" ada) "a@x.com"
                     (ex_intro _ (firstn 2 historyA
                                    ++ [Serve 5500
                                          (ProfileReq tok
                                             {| Profile.name := Some "";
                                                Profile.bio := None;
                                                Profile.phoneNumber := None;
                                                Profile.image := None |})])%list
                        eq_refl) _ _ _ _)) _ _);
      vm_compute; reflexivity.
Defined.

(* ------------------------------------------------------------------ *)
(** ** Sessions *)

Lemma login_status_200 `{Bcrypt} (env : option string) (db : Db) (now : Z)
  (b : Login.body) :
  status (snd (Login.POST env db now b)) = 200%Z ->
  exists u,
    Users.findOne (Login.email b) db = Some u
    /\ User.isVerified u = true
    /\ bcrypt_compare (Login.password b) (User.password u) = true
    /\ cookie (snd (Login.POST env db now b)) =
       Some (Jwt.sign {| Jwt.userId := User._id u; Jwt.role := User.role u |}
               (Js.or env fallbackSecret) now).
Proof.
  unfold Login.POST. destruct (Users.findOne _ db) as [u|]; [|discriminate].
  destruct (User.isVerified u) eqn:Hv; [|discriminate]. simpl.
  destruct (bcrypt_compare _ _) eqn:Hc; [|discriminate]. simpl.
  intros _. exists u. repeat split; assumption.
Qed.

(** The cookie of a login answered 200 at instant [now] identifies the
    account that logged in for one day: [getSession], under the same
    [JWT_SECRET], returns that account's id and role at every instant whose
    second lies less than 86400 seconds after the second of [now], and null
    from then on; under a different secret it returns null at every
    instant. A login that is not answered 200 sets no cookie, and without a
    cookie [getSession] returns null. *)
Theorem login_session_lasts_one_day `{Bcrypt} (env : option string) (db : Db)
  (now : Z) (b : Login.body) :
  (status (snd (Login.POST env db now b)) = 200%Z ->
   exists u,
     Users.findOne (Login.email b) db = Some u
     /\ (forall now' : Z,
           getSession env (cookie (snd (Login.POST env db now b))) now' =
           if (now' / 1000 <? now / 1000 + 86400)%Z
           then Some {| Jwt.userId := User._id u; Jwt.role := User.role u |}
           else None)
     /\ (forall (env' : option string) (now' : Z),
           Js.or env' fallbackSecret <> Js.or env fallbackSecret ->
           getSession env' (cookie (snd (Login.POST env db now b))) now' = None))
  /\ (status (snd (Login.POST env db now b)) <> 200%Z ->
      cookie (snd (Login.POST env db now b)) = None
      /\ forall now' : Z,
           getSession env (cookie (snd (Login.POST env db now b))) now' = None).
Proof.
  split.
  - intros Hs. destruct (login_status_200 env db now b Hs) as (u & Hf & _ & _ & Hc).
    exists u. split; [assumption|]. rewrite Hc. split.
    + intros now'. unfold getSession, Jwt.verify, Jwt.sign. simpl.
      now rewrite String.eqb_refl.
    + intros env' now' Hne. unfold getSession, Jwt.verify, Jwt.sign. simpl.
      assert (E : String.eqb (Js.or env fallbackSecret) (Js.or env' fallbackSecret)
                  = false) by (apply String.eqb_neq; congruence).
      now rewrite E.
  - unfold Login.POST. destruct (Users.findOne _ db) as [u|]; [|now split].
    destruct (User.isVerified u); simpl; [|now split].
    destruct (bcrypt_compare _ _); simpl; [|now split].
    intros Hs. now contradiction Hs.
Qed.

Lemma login_session_lasts_one_day_witness :
  let r := Login.POST (H := fakeBcrypt) None dbVerified 5000
             {| Login.email := "a@x.com"; Login.password := "secret1" |} in
  exists u, Users.findOne "a@x.com" dbVerified = Some u
            /\ getSession None (cookie (snd r)) 86404999 =
               Some {| Jwt.userId := User._id u; Jwt.role := User.role u |}
            /\ getSession None (cookie (snd r)) 86405000 = None.
Proof.
  destruct (proj1 (login_session_lasts_one_day (H := fakeBcrypt) None dbVerified 5000
                     {| Login.email := "a@x.com"; Login.password := "secret1" |})
              eq_refl) as (u & Hf & Hlife & _).
  exists u. split; [exact Hf|].
  split; [exact (Hlife 86404999%Z) | exact (Hlife 86405000%Z)].
Defined.

(* ------------------------------------------------------------------ *)
(** ** What verification and reset touch *)

(** The verify-otp and reset-password routes write at most one account,
    the one their lookup by the (normalised) email of the request finds,
    that is the first stored account with that email: the accounts before
    and after it are untouched, verification replaces it by itself with
    [isVerified] set, and a reset by itself with the new digest as password
    hash. Otherwise the accounts are exactly as they were. Neither route
    creates or removes an account. *)
Theorem verify_and_reset_touch_one_account `{Bcrypt} (db : Db) (now : Z) :
  (forall b : VerifyOtp.body,
      let db' := fst (VerifyOtp.POST db now b) in
      users db' = users db
      \/ exists before u after,
           Users.findOne (VerifyOtp.email b) db = Some u
           /\ users db = (before ++ u :: after)%list
           /\ Forall (fun x => User.email x <> User.castEmail (VerifyOtp.email b))
                before
           /\ users db' = (before ++ User.set_isVerified true u :: after)%list)
  /\ (forall (salt : string) (b : ResetPassword.body),
      let db' := fst (ResetPassword.POST db now salt b) in
      users db' = users db
      \/ exists before u after,
           Users.findOne (ResetPassword.email b) db = Some u
           /\ users db = (before ++ u :: after)%list
           /\ Forall (fun x => User.email x <> User.castEmail (ResetPassword.email b))
                before
           /\ users db' =
              (before
               ++ User.set_password (bcrypt_hash (ResetPassword.newPassword b) salt) u
               :: after)%list).
Proof.
  assert (Hupd : forall (e : string) (f : User.t -> User.t),
            updateFirst (Users.byEmail e) f (users db) = users db
            \/ exists before u after,
                 Users.findOne e db = Some u
                 /\ users db = (before ++ u :: after)%list
                 /\ Forall (fun x => User.email x <> User.castEmail e) before
                 /\ updateFirst (Users.byEmail e) f (users db)
                    = (before ++ f u :: after)%list).
  { intros e f. unfold Users.findOne.
    destruct (find (Users.byEmail e) (users db)) as [u|] eqn:Hf.
    - right. destruct (updateFirst_split _ f _ _ Hf) as (before & after & Hl & Hb & Hu).
      exists before, u, after. repeat split; auto.
      eapply Forall_impl; [|exact Hb]. intros x Hx. unfold Users.byEmail in Hx.
      now apply String.eqb_neq.
    - left. now apply updateFirst_none. }
  split.
  - intros b. cbv zeta. unfold VerifyOtp.POST.
    destruct (Otps.findOne _ _ _ db) as [o|]; [|now left].
    destruct (now >? Otp.expiresAt o)%Z; simpl; [now left|]. apply Hupd.
  - intros salt b. cbv zeta. unfold ResetPassword.POST.
    destruct (Otps.findOne _ _ _ db) as [o|]; [|now left].
    simpl. apply Hupd.
Qed.

(* ------------------------------------------------------------------ *)
(** ** The cached database connection *)

Lemma calls_connected (rest : list DbConnection.settled) (c : nat)
  (p : option DbConnection.settled) :
  DbConnection.calls rest {| DbConnection.conn := Some c; DbConnection.promise := p |}
  = repeat {| DbConnection.returned := Some c; DbConnection.started := false |}
      (length rest).
Proof.
  induction rest as [|a rest IH]; simpl; [reflexivity|]. now rewrite IH.
Qed.

(** Calls served one after the other from a fresh cache: as long as
    [mongoose.connect] is rejected, every call starts a new attempt and
    throws; the first call whose attempt resolves returns that connection;
    and every later call returns the same connection without starting
    [mongoose.connect] again, however its own attempt would have settled. *)
Theorem connectToDatabase_connects_once (n c : nat)
  (rest : list DbConnection.settled) :
  DbConnection.calls
    (repeat DbConnection.Rejected n ++ DbConnection.Resolved c :: rest)
    DbConnection.initial
  = (repeat {| DbConnection.returned := None; DbConnection.started := true |} n
     ++ {| DbConnection.returned := Some c; DbConnection.started := true |}
     :: repeat {| DbConnection.returned := Some c; DbConnection.started := false |}
          (length rest))%list.
Proof.
  induction n as [|n IH]; simpl.
  - now rewrite calls_connected.
  - unfold DbConnection.initial in IH. now rewrite IH.
Qed.

(* ------------------------------------------------------------------ *)
(** ** The id of an input field *)

Lemma isSpace_lowerChar (c : ascii) : Js.isSpace (Js.lowerChar c) = Js.isSpace c.
Proof. destruct c as [[] [] [] [] [] [] [] []]; reflexivity. Qed.

Lemma isUpper_lowerChar (c : ascii) : Js.isUpper (Js.lowerChar c) = false.
Proof. destruct c as [[] [] [] [] [] [] [] []]; reflexivity. Qed.

Lemma noChar_append (p : ascii -> bool) (a b : string) :
  noChar p (a ++ b) = noChar p a && noChar p b.
Proof.
  induction a as [|c a IH]; simpl; [reflexivity|].
  now rewrite IH, andb_assoc.
Qed.

Lemma replaceRuns_no_space (inRun : bool) (s : string) :
  noChar Js.isSpace (Input.replaceRuns inRun s) = true.
Proof.
  revert inRun. induction s as [|c s IH]; intros inRun; simpl; [reflexivity|].
  destruct (Js.isSpace c) eqn:Hc.
  - destruct inRun; simpl; auto.
  - simpl. now rewrite Hc, IH.
Qed.

Lemma replaceRuns_no_upper (inRun : bool) (s : string) :
  noChar Js.isUpper s = true ->
  noChar Js.isUpper (Input.replaceRuns inRun s) = true.
Proof.
  revert inRun. induction s as [|c s IH]; intros inRun; simpl; [reflexivity|].
  intros Hs. apply andb_true_iff in Hs as [Hc Hs].
  destruct (Js.isSpace c); [destruct inRun|]; simpl; auto.
  now rewrite Hc, IH.
Qed.

Lemma toLowerCase_no_upper (s : string) : noChar Js.isUpper (Js.toLowerCase s) = true.
Proof.
  induction s as [|c s IH]; simpl; [reflexivity|].
  now rewrite isUpper_lowerChar, IH.
Qed.

(** The id the Input component gives a field that has no id of its own
    (absent or empty): it starts with ["input-"] and contains no white space
    and no upper-case letter, whatever the label; without a label it is
    ["input-undefined"]. An id that is given and not empty is used as it
    is. *)
Theorem inputId_is_a_token (label : option string) :
  Input.inputId None label = Input.inputId (Some "") label
  /\ prefix "input-" (Input.inputId None label) = true
  /\ noChar Js.isSpace (Input.inputId None label) = true
  /\ noChar Js.isUpper (Input.inputId None label) = true
  /\ Input.inputId None None = "input-undefined"
  /\ (forall (c : ascii) (id : string),
        Input.inputId (Some (String c id)) label = String c id).
Proof.
  assert (E : Input.inputId None label = "input-" ++ Input.slug label)
    by reflexivity.
  split; [reflexivity|]. rewrite E.
  split; [apply prefix_append|]. rewrite !noChar_append.
  repeat split.
  - destruct label as [l|]; simpl; [apply replaceRuns_no_space | reflexivity].
  - destruct label as [l|]; simpl; [|reflexivity].
    apply replaceRuns_no_upper, toLowerCase_no_upper.
Qed.

Example inputId_samples :
  map (Input.inputId None) [Some "Full Name"; Some "  E-mail   Address "; Some ""]
  = ["input-full-name"; "input--e-mail-address-"; "input-"].
Proof. reflexivity. Qed.

(* ------------------------------------------------------------------ *)
(** ** Codes and the accounts they belong to *)

Lemma findOne_some_registered (e : string) (db : Db) (u : User.t) :
  Users.findOne e db = Some u ->
  In (User.castEmail e) (map User.email (users db)).
Proof.
  unfold Users.findOne. intros Hf. apply find_some in Hf as [Hin Hb].
  unfold Users.byEmail in Hb. apply String.eqb_eq in Hb. rewrite <- Hb.
  now apply in_map.
Qed.

Lemma codes_step `{Bcrypt} (env : option string) (db : Db) (ev : Event) (o : Otp.t) :
  In o (otps (step env db ev)) ->
  (exists o0, In o0 (otps db) /\ Otp.email o0 = Otp.email o)
  \/ In (User.castEmail (Otp.email o)) (map User.email (users (step env db ev))).
Proof.
  assert (Hold : forall P : Prop,
                   In o (otps db) ->
                   (exists o0, In o0 (otps db) /\ Otp.email o0 = Otp.email o) \/ P).
  { intros P Hin. left. exists o. auto. }
  destruct ev as [now r|now]; simpl in *.
  - destruct r as [salt b|b|b|b|salt b|tok salt b|tok b|tok b]; simpl in *.
    + destruct (signup_store db now salt b) as [[-> _] | (Hf & _ & ->)]; [apply Hold|].
      simpl. intros Hin. apply in_app_iff in Hin as [Hin | [<- | []]].
      * left. exists o. auto.
      * right. simpl. rewrite map_app, in_app_iff. right. simpl. auto.
    + unfold VerifyOtp.POST in *.
      destruct (Otps.findOne _ _ _ db) as [x|]; [|apply Hold].
      destruct (now >? Otp.expiresAt x)%Z; simpl in *; intros Hin;
        apply In_removeFirst in Hin; auto.
    + rewrite login_keeps_store in *. apply Hold.
    + unfold ForgotPassword.POST in *.
      destruct (Users.findOne (ForgotPassword.email b) db) as [u|] eqn:Hf;
        [|apply Hold].
      unfold Otps.findOneAndUpdate_upsert in *.
      destruct (existsb _ (otps db)); simpl in *; intros Hin.
      * apply In_updateFirst in Hin as [Hin | (x & Hx & ->)]; [auto|].
        left. exists x. auto.
      * apply in_app_iff in Hin as [Hin | [<- | []]]; [auto|].
        right. simpl. now apply (findOne_some_registered _ _ u).
    + unfold ResetPassword.POST in *.
      destruct (Otps.findOne _ _ _ db) as [x|]; [|apply Hold].
      simpl in *. intros Hin. apply In_removeFirst in Hin. auto.
    + unfold UpdatePassword.PATCH in *. destruct (getSession _ _ _); [|apply Hold].
      destruct (Users.findById _ db) as [u|]; [|apply Hold].
      destruct (negb (bcrypt_compare _ _)); [apply Hold|].
      unfold Users.savePassword in *.
      destruct (Users.validate _); apply Hold.
    + unfold Profile.PATCH in *. destruct (getSession _ _ _); apply Hold.
    + unfold Settings.PATCH in *. destruct (getSession _ _ _) as [session|];
        [|apply Hold].
      destruct (Settings.prefs b) as [p|]; [|apply Hold].
      unfold Users.findByIdAndUpdate in *. destruct (option_map _ _); apply Hold.
  - intros Hin. apply filter_In in Hin as [Hin _]. left. exists o. auto.
Qed.

Lemma codesBelong_run `{Bcrypt} (env : option string) (evs : list Event) (db : Db) :
  codesBelong db -> codesBelong (run env db evs).
Proof.
  revert db. induction evs as [|ev evs IH]; simpl; intros db Hb; [assumption|].
  apply IH. intros o Hin.
  destruct (codes_step env db ev o Hin) as [(o0 & Hin0 & He) | Hreg]; [|assumption].
  rewrite <- He.
  assert (Hinc : incl (map User.email (users db))
                   (map User.email (users (step env db ev)))).
  { destruct ev; simpl; [apply emails_handle | apply incl_refl]. }
  apply Hinc. now apply Hb.
Qed.

(** In every reachable state each stored one-time code carries the email of
    an existing account; so a verify-otp or reset-password request that is
    answered 200 has always found the account it updates. *)
Theorem codes_belong_to_accounts `{Bcrypt} (env : option string) (db : Db) :
  reachable env db ->
  (forall o, In o (otps db) ->
             exists u, Users.findOne (Otp.email o) db = Some u)
  /\ (forall (now : Z) (b : VerifyOtp.body),
        status (snd (VerifyOtp.POST db now b)) = 200%Z ->
        exists u,
          Users.findOne (VerifyOtp.email b) db = Some u
          /\ Users.findOne (VerifyOtp.email b) (fst (VerifyOtp.POST db now b))
             = Some (User.set_isVerified true u))
  /\ (forall (now : Z) (salt : string) (b : ResetPassword.body),
        status (snd (ResetPassword.POST db now salt b)) = 200%Z ->
        exists u,
          Users.findOne (ResetPassword.email b) db = Some u
          /\ Users.findOne (ResetPassword.email b)
               (fst (ResetPassword.POST db now salt b))
             = Some (User.set_password
                       (bcrypt_hash (ResetPassword.newPassword b) salt) u)).
Proof.
  intros [evs ->].
  assert (Hb : codesBelong (run env emptyDb evs)).
  { apply codesBelong_run. intros o []. }
  set (db := run env emptyDb evs) in *. clearbody db.
  assert (Hacc : forall o, In o (otps db) ->
                           exists u, Users.findOne (Otp.email o) db = Some u).
  { intros o Hin. apply findOne_some_email. now apply Hb. }
  split; [exact Hacc|]. split.
  - intros now b Hs. apply verify_otp_status_200 in Hs as (o & Hf & _ & ->).
    unfold Otps.findOne in Hf. apply find_some in Hf as [Hin Hk].
    destruct (Hacc o Hin) as [u Hu].
    unfold Otps.byKey in Hk. apply andb_true_iff in Hk as [Hk _].
    apply andb_true_iff in Hk as [He _]. apply String.eqb_eq in He.
    rewrite He in Hu. exists u. split; [assumption|].
    unfold Users.findOne in *. simpl. now apply find_updateFirst_self.
  - intros now salt b Hs. apply reset_password_status_200 in Hs as (o & Hf & ->).
    unfold Otps.findOne in Hf. apply find_some in Hf as [Hin Hk].
    destruct (Hacc o Hin) as [u Hu].
    unfold Otps.byKey in Hk. apply andb_true_iff in Hk as [Hk _].
    apply andb_true_iff in Hk as [He _]. apply String.eqb_eq in He.
    rewrite He in Hu. exists u. split; [assumption|].
    unfold Users.findOne in *. simpl. now apply find_updateFirst_self.
Qed.

Lemma codes_belong_to_accounts_witness :
  exists u, Users.findOne "a@x.com" dbResetPending = Some u.
Proof.
  exact (proj1 (codes_belong_to_accounts (H := fakeBcrypt) None dbResetPending
                  (ex_intro _ historyA eq_refl))
           {| Otp._id := 2; Otp.email := "a@x.com"; Otp.code := "123456";
              Otp.type := Otp.reset; Otp.expiresAt := 902000 |}
           (or_introl eq_refl)).
Defined.

(* ------------------------------------------------------------------ *)
(** ** From a reset request to a login *)

(** For an existing account: a forgot-password request, then a
    reset-password request with the same email, the issued code and any new
    password, no later than fifteen minutes after the first: the reset is
    answered 200 and the account's hash is the digest of the new password;
    if the account is verified, login with the new password is answered
    200. *)
Theorem forgot_then_reset_then_login `{Bcrypt} (env : option string) (db : Db)
  (now now1 now2 : Z) (salt e newPassword : string) (u : User.t) :
  Users.findOne e db = Some u ->
  (now1 <= now + 900000)%Z ->
  let db1 := fst (ForgotPassword.POST db now {| ForgotPassword.email := e |}) in
  let r := ResetPassword.POST db1 now1 salt
             {| ResetPassword.email := e; ResetPassword.code := "123456";
                ResetPassword.newPassword := newPassword |} in
  snd r = json "Password updated successfully. You can now login." 200
  /\ Users.findOne e (fst r) = Some (User.set_password (bcrypt_hash newPassword salt) u)
  /\ (User.isVerified u = true ->
      status (snd (Login.POST env (fst r) now2
                     {| Login.email := e; Login.password := newPassword |}))
      = 200%Z).
Proof.
  intros Hu _. cbv zeta.
  destruct (forgot_password_issues_code_iff_account db now
              {| ForgotPassword.email := e |}) as (_ & _ & Hissue).
  destruct (Hissue u Hu) as (Husers & o & Ho & _). simpl ForgotPassword.email in *.
  set (db1 := fst (ForgotPassword.POST db now {| ForgotPassword.email := e |})) in *.
  unfold ResetPassword.POST. simpl ResetPassword.email. simpl ResetPassword.code.
  simpl ResetPassword.newPassword. rewrite Ho. simpl snd. simpl fst.
  split; [reflexivity|].
  assert (Hfind : Users.findOne e
                    (Otps.deleteOne (Otp._id o)
                       (Users.findOneAndUpdate e
                          (User.set_password (bcrypt_hash newPassword salt)) db1))
                  = Some (User.set_password (bcrypt_hash newPassword salt) u)).
  { unfold Users.findOne in *. simpl. rewrite Husers.
    now apply find_updateFirst_self. }
  split; [exact Hfind|]. intros Hv.
  unfold Login.POST. simpl Login.email. simpl Login.password.
  rewrite Hfind. simpl. rewrite Hv. simpl. now rewrite bcrypt_compare_hash.
Qed.

Lemma forgot_then_reset_then_login_witness :
  let db1 := fst (ForgotPassword.POST dbVerified 2000
                    {| ForgotPassword.email := "a@x.com" |}) in
  snd (ResetPassword.POST (H := fakeBcrypt) db1 3000 "s1"
         {| ResetPassword.email := "a@x.com"; ResetPassword.code := "123456";
            ResetPassword.newPassword := "hunter22" |})
  = json "Password updated successfully. You can now login." 200.
Proof.
  refine (proj1 (forgot_then_reset_then_login (H := fakeBcrypt) None dbVerified
                   2000 3000 4000 "s1" "a@x.com" "hunter22"
                   {| User._id := 0; User.name := "Ada"; User.email := "a@x.com";
                      User.password := "$2a$10$secret1$s0"; User.role := "user";
                      User.isVerified := true; User.image := "";
                      User.phoneNumber := ""; User.bio := "";
                      User.preferences := User.defaultPreferences |} _ _));
    vm_compute; [reflexivity | discriminate].
Defined.
